(** * Action Gym fulfillment webhook: a shallow embedding

    The repository holds three versions of one Dialogflow fulfillment
    ([index.js]): [start/functions/index.js] and the two files of
    [unnamed/part_000].  Each registers one middleware and a fixed set of
    intent handlers on an [actions-on-google] app.  The handlers are embedded
    below as state transformers over the conversation object, the Firestore
    [users] collection and the list of callbacks they leave pending. *)

From Stdlib Require Import ZArith Ascii String.
From stdpp Require Import base gmap strings list pretty.

Local Open Scope string_scope.
Local Open Scope Z_scope.
Local Open Scope list_scope.

(** ** JavaScript values and built-ins used by the handlers *)

Module JS.

(** A value returned by [conv.arguments.get(name)]: the platform sends
    booleans ([boolValue]), strings ([textValue], and [intValue], which is
    an int64 and therefore a JSON string) and objects ([extension]).
    [None] stands for [undefined].  Strings carry the UTF-8 bytes of the
    JavaScript string. *)
Inductive ArgValue :=
| ABool (b : bool)
| AStr (s : string)
| AObj (fields : gmap string string).

(** ToBoolean *)
Definition truthy (v : option ArgValue) : bool :=
  match v with
  | None => false
  | Some (ABool b) => b
  | Some (AStr s) => negb (String.eqb s "")
  | Some (AObj _) => true
  end.

(** ToBoolean of a value that is a string or [undefined] *)
Definition truthy_str (v : option string) : bool :=
  match v with
  | None => false
  | Some s => negb (String.eqb s "")
  end.

(** ToBoolean of a number: 0 and NaN are falsy *)
Definition truthy_num (n : option Z) : bool :=
  match n with
  | None => false
  | Some m => negb (m =? 0)
  end.

(** ToString *)
Definition ToString (v : option ArgValue) : string :=
  match v with
  | None => "undefined"
  | Some (ABool true) => "true"
  | Some (ABool false) => "false"
  | Some (AStr s) => s
  | Some (AObj _) => "[object Object]"
  end.

(** [obj.name] on a value: only objects carry own properties here. *)
Definition get_field (v : option ArgValue) (name : string) : option string :=
  match v with
  | Some (AObj fields) => fields !! name
  | _ => None
  end.

Definition code (c : ascii) : Z := Z.of_N (N_of_ascii c).

(** White space and line terminators of one byte: TAB, LF, VT, FF, CR, SP. *)
Definition ws1 (c : ascii) : bool :=
  ((9 <=? code c) && (code c <=? 13)) || (code c =? 32).

(** U+00A0 *)
Definition ws2 (c1 c2 : ascii) : bool :=
  (code c1 =? 194) && (code c2 =? 160).

(** U+1680, U+2000..U+200A, U+2028, U+2029, U+202F, U+205F, U+3000,
    U+FEFF *)
Definition ws3 (c1 c2 c3 : ascii) : bool :=
  let '(a, b, c) := (code c1, code c2, code c3) in
  ((a =? 225) && (b =? 154) && (c =? 128))
  || ((a =? 226) && (b =? 128)
      && (((128 <=? c) && (c <=? 138)) || (c =? 168) || (c =? 169)
          || (c =? 175)))
  || ((a =? 226) && (b =? 129) && (c =? 159))
  || ((a =? 227) && (b =? 128) && (c =? 128))
  || ((a =? 239) && (b =? 187) && (c =? 191)).

(** Leading StrWhiteSpaceChar removed, as the first step of [parseInt]. *)
Fixpoint trimStart (s : string) : string :=
  match s with
  | String c1 s1 =>
      if ws1 c1 then trimStart s1
      else
        match s1 with
        | String c2 s2 =>
            if ws2 c1 c2 then trimStart s2
            else
              match s2 with
              | String c3 s3 => if ws3 c1 c2 c3 then trimStart s3 else s
              | EmptyString => s
              end
        | EmptyString => s
        end
  | EmptyString => s
  end.

(** Value of a digit in radix [R] (10 or 16). *)
Definition digit (R : Z) (c : ascii) : option Z :=
  let n := code c in
  if (48 <=? n) && (n <=? 57) then Some (n - 48)
  else if (R =? 16) && (97 <=? n) && (n <=? 102) then Some (n - 87)
  else if (R =? 16) && (65 <=? n) && (n <=? 70) then Some (n - 55)
  else None.

(** The longest prefix of radix-[R] digits, as a number; [acc] is [None]
    until a digit has been read. *)
Fixpoint digits (R : Z) (s : string) (acc : option Z) : option Z :=
  match s with
  | String c s' =>
      match digit R c with
      | Some d => digits R s' (Some (R * default 0 acc + d))
      | None => acc
      end
  | EmptyString => acc
  end.

(** [parseInt(string)] with no radix argument; [None] is NaN.  The result
    is the exact integer: the handlers only compare it with 0 and 1, and
    rounding to a double never maps another integer to 0 or 1. *)
Definition parseInt_string (s : string) : option Z :=
  let S0 := trimStart s in
  let '(sign, S1) :=
    match S0 with
    | String "-" r => (-1, r)
    | String "+" r => (1, r)
    | _ => (1, S0)
    end in
  let '(R, S2) :=
    match S1 with
    | String "0" (String "x" r) => (16, r)
    | String "0" (String "X" r) => (16, r)
    | _ => (10, S1)
    end in
  (fun n => sign * n) <$> digits R S2 None.

Definition parseInt (v : option ArgValue) : option Z :=
  parseInt_string (ToString v).

(** [x === n] for a number [x] that may be NaN *)
Definition num_eq (x : option Z) (n : Z) : bool :=
  match x with
  | Some m => m =? n
  | None => false
  end.

(** [new Set(iterable)]: values are appended in iteration order unless
    already present.  The list is the insertion order, which is the
    order the spread [[...set]] yields. *)
Definition set_add (values : list string) (x : string) : list string :=
  if bool_decide (x ∈ values) then values else values ++ [x].

Definition new_Set (l : list string) : list string :=
  fold_left set_add l [].

(** [array.join(sep)] *)
Fixpoint join (sep : string) (l : list string) : string :=
  match l with
  | [] => ""
  | [x] => x
  | x :: rest => x +:+ sep +:+ join sep rest
  end.

End JS.

(** ** The conversation object, the document store and the environment *)

(** What [conv.ask] and [conv.close] accept: a string (a simple response) or
    one of the helper objects the handlers construct. *)
Inductive Response :=
| SimpleResponse (text : string)
| Suggestions (titles : list string)
| UpdatePermission (target : string)
| RegisterUpdate (target frequency : string).

(** The part of a webhook request the handlers read. *)
Record Request := mkRequest {
  intent : string;                       (* conv.intent *)
  parameters : gmap string string;       (* conv.parameters; a handler
                                            destructures [day] from it *)
  arguments : gmap string JS.ArgValue;   (* conv.arguments.get(name) *)
  argument0 : option JS.ArgValue;        (* the handlers' third parameter *)
  screen : bool;                         (* conv.screen *)
  conversationId : string;   (* conv.request.conversation.conversationId *)
}.

(** [conv]: the request, the session data ([conv.data.fallbackCount],
    [None] while the field is [undefined] or after [++] made it NaN: both
    are falsy and equal to no number), and what has been said so far. *)
Record Conversation := mkConversation {
  request : Request;
  fallbackCount : option Z;
  responses : list Response;
  expectUserResponse : bool;
}.

(** A document of the [users] collection: the two fields
    [FirestoreNames.INTENT] and [FirestoreNames.USER_ID]. *)
Record Doc := mkDoc {
  doc_intent : string;
  doc_userId : JS.ArgValue;
}.

Record ScheduleEntry := mkEntry {
  name : string;
  startTime : string;
}.

Inductive weekday :=
| Sunday | Monday | Tuesday | Wednesday | Thursday | Friday | Saturday.

(** An exception value: the TypeError the engine raises on a property read
    of [undefined], or [new Error(message)]. *)
Inductive Error :=
| TypeError
| mkError (message : string).

(** What a [request.post] callback receives: [err], or [httpResponse] and
    [body] (already the text [JSON.stringify(body)] prints). *)
Inductive PostResult :=
| PostError (err : string)
| PostResponse (statusCode : Z) (statusMessage : string) (body : string).

(** Everything outside the module that a request depends on.
    [schedule.json] is not part of the sources: its [days] object is a
    parameter.  The service-account file is taken to load. *)
Record World := mkWorld {
  schedule_days : gmap string (list ScheduleEntry);
  today : weekday;                        (* the day [new Date()] falls on *)
  add_error : option string;              (* rejection of [collection.add] *)
  authorize_result : string + string;     (* [err], or [tokens.access_token] *)
  query_error : option string;            (* rejection of [query.get] *)
  post_result : nat → PostResult;         (* outcome of the i-th post *)
}.

(** A callback handed to an asynchronous call and run after the handler has
    returned: [cancelClass] passes one to [client.authorize]; it closes over
    the notification title and the topic of the query. *)
Inductive Callback :=
| OnAuthorize (title topic : string).

Record State := mkState {
  conv : Conversation;
  users : list Doc;            (* db.collection(FirestoreNames.USERS) *)
  pending : list Callback;
}.

(** ** Handlers as state transformers that may throw *)

Inductive Result (A : Type) :=
| Done (a : A)
| Thrown (e : Error).
Arguments Done {A} a.
Arguments Thrown {A} e.

Definition M (A : Type) : Type := State → Result A * State.

#[global] Instance M_ret : MRet M := λ A a st, (Done a, st).

#[global] Instance M_bind : MBind M := λ A B f m st,
  match m st with
  | (Done a, st') => f a st'
  | (Thrown e, st') => (Thrown e, st')
  end.

Definition throw {A} (e : Error) : M A := λ st, (Thrown e, st).

Definition get_conv : M Conversation := λ st, (Done (conv st), st).

Definition set_conv (c : Conversation) : M unit := λ st,
  (Done (), mkState c (users st) (pending st)).

Definition when (b : bool) (m : M unit) : M unit :=
  if b then m else mret ().

(** [conv.ask(r)] and [conv.close(r)]: both add the response; [ask] leaves
    the session open, [close] ends it. *)
Definition ask (r : Response) : M unit :=
  c ← get_conv;
  set_conv (mkConversation (request c) (fallbackCount c)
                           (responses c ++ [r]) true).

Definition close (r : Response) : M unit :=
  c ← get_conv;
  set_conv (mkConversation (request c) (fallbackCount c)
                           (responses c ++ [r]) false).

(** [conv.data.fallbackCount = n] *)
Definition set_fallbackCount (n : option Z) : M unit :=
  c ← get_conv;
  set_conv (mkConversation (request c) n (responses c)
                           (expectUserResponse c)).

(** [db.collection(USERS).add(doc)], awaited: the document is appended, or
    the returned promise rejects and nothing is stored. *)
Definition collection_add (w : World) (d : Doc) : M unit := λ st,
  match add_error w with
  | None => (Done (), mkState (conv st) (users st ++ [d]) (pending st))
  | Some e => (Thrown (mkError e), st)
  end.

(** [collection.where(INTENT, '==', topic).get()]: a read.  The matches
    are listed in the order of the collection, which is the order of
    insertion; Firestore yields them in the order of their generated ids.
    The place of a document among the matches therefore has no counterpart
    in the code, and nothing below is concluded from it. *)
Definition collection_where_intent (topic : string) (docs : list Doc)
  : list Doc :=
  filter (λ d, doc_intent d = topic) docs.

(** An asynchronous call: the callback is queued, the handler goes on. *)
Definition defer (cb : Callback) : M unit := λ st,
  (Done (), mkState (conv st) (users st) (pending st ++ [cb])).

(** Days of the week, and [DAYS[new Date().getDay()]].  An index outside
    the array would read [undefined], which every later use turns into the
    string "undefined". *)
Definition DAYS : list string :=
  ["Sunday"; "Monday"; "Tuesday"; "Wednesday"; "Thursday"; "Friday";
   "Saturday"].

Definition getDay (d : weekday) : nat :=
  match d with
  | Sunday => 0 | Monday => 1 | Tuesday => 2 | Wednesday => 3
  | Thursday => 4 | Friday => 5 | Saturday => 6
  end%nat.

Definition DAYS_today (w : World) : string :=
  default "undefined" (DAYS !! getDay (today w)).

(** [if (!day) day = DAYS[new Date().getDay()]] *)
Definition resolve_day (w : World) (day : option string) : string :=
  match day with
  | Some d => if JS.truthy_str day then d else DAYS_today w
  | None => DAYS_today w
  end.

(** [schedule.days[day].map(d => `${d.name} at ${d.startTime}`)], made a
    [Set], spread and joined.  Reading [.map] of a missing day throws (and
    so does calling the [.map] of a property inherited from
    [Object.prototype], none of which is an array). *)
Definition class_strings (entries : list ScheduleEntry) : list string :=
  map (λ d, name d +:+ " at " +:+ startTime d) entries.

Definition classes_of (w : World) (day : string) : M string :=
  match schedule_days w !! day with
  | Some entries => mret (JS.join ", " (JS.new_Set (class_strings entries)))
  | None => throw TypeError
  end.

(** An app: [app.middleware(f)] and the handlers registered with
    [app.intent(name, handler)]. *)
Record App := mkApp {
  app_middleware : M unit;
  app_intents : string → option (World → M unit);
}.

(** [conv.data.fallbackCount++] *)
Definition incr_fallbackCount : M unit :=
  c ← get_conv;
  set_fallbackCount ((λ n, n + 1) <$> fallbackCount c).

(** ** First file of [unnamed/part_000] (intent names in camel case) *)

Module UnnamedA.

Module Suggestion.
Definition HOURS := "Ask about hours".
Definition CLASSES := "Learn about classes".
Definition REMINDER := "Set reminders".
Definition CANCELLATION := "Class cancellation".
Definition DAILY_UPDATE := "Send daily updates".
Definition ROUTINES := "Set up routines".
Definition NOTIFICATION := "Send notifications".
Definition YES := "Sure!".
Definition NO := "No thanks".
End Suggestion.

(** Runs before every intent handler: resets the fallback count to 0 if
    it is falsy or the intent is not the fallback intent. *)
Definition middleware : M unit :=
  c ← get_conv;
  when (negb (JS.truthy_num (fallbackCount c))
        || negb (String.eqb (intent (request c)) "fallback"))
    (set_fallbackCount (Some 0)).

Definition welcome (w : World) : M unit :=
  let welcomeMessage := "Welcome to Action Gym, your local gym here to " +:+
    "support your health goals. You can ask me about our hours " +:+
    "or what classes we offer each day." in
  ask (SimpleResponse welcomeMessage) ;;
  c ← get_conv;
  when (screen (request c))
    (ask (Suggestions [Suggestion.HOURS; Suggestion.CLASSES;
                       Suggestion.CANCELLATION])).

Definition quit (w : World) : M unit :=
  close (SimpleResponse "Great chatting with you!").

Definition hours (w : World) : M unit :=
  let hoursMessage := "Our free weights and machines are available " +:+
    "from 5am - 10pm, seven days a week. Can I help you with anything else?" in
  ask (SimpleResponse hoursMessage) ;;
  c ← get_conv;
  when (screen (request c)) (ask (Suggestions [Suggestion.CLASSES])).

Definition classList (w : World) : M unit :=
  c ← get_conv;
  let day := resolve_day w (parameters (request c) !! "day") in
  classes ← classes_of w day;
  let classesMessage :=
    "On " +:+ day +:+ " we offer the following classes: " +:+ classes +:+
    ". " +:+
    "If you'd like, I can send you reminders about our classes. " +:+
    "Can I help you with anything else?" in
  ask (SimpleResponse classesMessage) ;;
  when (screen (request c))
    (ask (Suggestions [Suggestion.HOURS; Suggestion.REMINDER;
                       Suggestion.CANCELLATION])).

Definition noInput (w : World) : M unit :=
  c ← get_conv;
  let repromptCount :=
    JS.parseInt (arguments (request c) !! "REPROMPT_COUNT") in
  if JS.num_eq repromptCount 0 then
    ask (SimpleResponse "Sorry, I can't hear you.")
  else if JS.num_eq repromptCount 1 then
    ask (SimpleResponse "I'm sorry, I still can't hear you.")
  else if JS.truthy (arguments (request c) !! "IS_FINAL_REPROMPT") then
    close (SimpleResponse ("I'm sorry, I'm having trouble here. " +:+
                           "Maybe we should try this again later."))
  else mret ().

Definition fallback (w : World) : M unit :=
  incr_fallbackCount ;;
  c ← get_conv;
  if JS.num_eq (fallbackCount c) 1 then
    ask (SimpleResponse "Sorry, what was that?")
  else if JS.num_eq (fallbackCount c) 2 then
    ask (SimpleResponse ("I didn't quite get that. I can tell you our hours " +:+
                         "or what classes we offer each day."))
  else
    close (SimpleResponse ("Sorry, I'm still having trouble. " +:+
                           "So let's stop here for now. Bye.")).

Definition reminder (w : World) : M unit :=
  let reminderMessage := "Great! I can send you the list of classes by " +:+
    "sending you a daily updates. Let me know if you want me to send these " +:+
    "to you." in
  ask (SimpleResponse reminderMessage) ;;
  c ← get_conv;
  when (screen (request c)) (ask (Suggestions [Suggestion.DAILY_UPDATE])).

Definition notification (w : World) : M unit :=
  let moreOptionsMessage := "I can support you by sending you " +:+
    "notifications when classes get cancelled due to emergencies. " +:+
    "Let me know if you want me to send these to you." in
  ask (SimpleResponse moreOptionsMessage) ;;
  c ← get_conv;
  when (screen (request c)) (ask (Suggestions [Suggestion.NOTIFICATION])).

Definition setupPushNotifications (w : World) : M unit :=
  ask (SimpleResponse "Update permission for setting up push notifications") ;;
  ask (UpdatePermission "classCanceled").

(** The handler returns the promise of [add(...).then(...)]: the reply is
    added once the document is stored. *)
Definition configurePushNotifications (w : World) : M unit :=
  c ← get_conv;
  if JS.truthy (arguments (request c) !! "PERMISSION") then
    let userId :=
      match arguments (request c) !! "UPDATES_USER_ID" with
      | Some userId =>
          if negb (JS.truthy (Some userId))
          then JS.AStr (conversationId (request c))
          else userId
      | None => JS.AStr (conversationId (request c))
      end in
    collection_add w (mkDoc "classCanceled" userId) ;;
    ask (SimpleResponse ("Cool, I'll notify you whenever there is a cancelation. " +:+
                         "Would you like anything else?"))
  else
    ask (SimpleResponse "Okay, I won't notify you. Would you like anything else?").

Definition classCanceled (w : World) : M unit :=
  ask (SimpleResponse "A class was canceled.").

Definition setupUpdates (w : World) : M unit :=
  ask (RegisterUpdate "classList" "DAILY").

Definition configureUpdates (w : World) : M unit :=
  c ← get_conv;
  let registered := argument0 (request c) in
  (if JS.truthy registered
      && bool_decide (JS.get_field registered "status" = Some "OK")
   then
     ask (SimpleResponse ("Gotcha, I'll send you an update everyday with the " +:+
                          "list of classes. Anything else I can help you with?"))
   else
     ask (SimpleResponse ("Ok, I won't send you daily updates. Anything else I " +:+
                          "can help you with?"))) ;;
  when (screen (request c))
    (ask (Suggestions [Suggestion.HOURS; Suggestion.CLASSES;
                       Suggestion.REMINDER; Suggestion.CANCELLATION])).

Definition setupRoutine (w : World) : M unit :=
  ask (RegisterUpdate "classList" "ROUTINES").

Definition configureRoutine (w : World) : M unit :=
  ask (SimpleResponse "Anything else I can help you with?") ;;
  c ← get_conv;
  when (screen (request c))
    (ask (Suggestions [Suggestion.HOURS; Suggestion.CLASSES;
                       Suggestion.REMINDER; Suggestion.NOTIFICATION])).

(** [client.authorize] only queues its callback; the reply is added and
    the handler returns before the callback can run. *)
Definition cancelClass (w : World) : M unit :=
  defer (OnAuthorize "Notification Title" "classCanceled") ;;
  ask (SimpleResponse "A notification has been sent to all subscribed users.").

Definition intents (name : string) : option (World → M unit) :=
  if String.eqb name "welcome" then Some welcome
  else if String.eqb name "quit" then Some quit
  else if String.eqb name "hours" then Some hours
  else if String.eqb name "classList" then Some classList
  else if String.eqb name "noInput" then Some noInput
  else if String.eqb name "fallback" then Some fallback
  else if String.eqb name "reminder" then Some reminder
  else if String.eqb name "notification" then Some notification
  else if String.eqb name "setupPushNotifications"
    then Some setupPushNotifications
  else if String.eqb name "configurePushNotifications"
    then Some configurePushNotifications
  else if String.eqb name "classCanceled" then Some classCanceled
  else if String.eqb name "setupUpdates" then Some setupUpdates
  else if String.eqb name "configureUpdates" then Some configureUpdates
  else if String.eqb name "setupRoutine" then Some setupRoutine
  else if String.eqb name "configureRoutine" then Some configureRoutine
  else if String.eqb name "cancelClass" then Some cancelClass
  else None.

Definition app : App := mkApp middleware intents.

End UnnamedA.

(** ** Second file of [unnamed/part_000] (intent names in title case) *)

Module UnnamedB.

Module Suggestion.
Definition HOURS := "Ask about hours".
Definition CLASSES := "Learn about classes".
Definition DAILY := "Send daily reminders".
Definition NOTIFICATIONS := "Get notifications".
End Suggestion.

(** Fallback counting that runs before every intent handler. *)
Definition middleware : M unit :=
  c ← get_conv;
  when (negb (JS.truthy_num (fallbackCount c))
        || negb (String.eqb (intent (request c)) "Fallback"))
    (set_fallbackCount (Some 0)).

Definition Welcome (w : World) : M unit :=
  let welcomeMessage := "Welcome to Action Gym, your local gym here to " +:+
    "support your health goals. You can ask me about our hours " +:+
    "or what classes we offer each day." in
  ask (SimpleResponse welcomeMessage) ;;
  c ← get_conv;
  when (screen (request c))
    (ask (Suggestions [Suggestion.HOURS; Suggestion.CLASSES])).

Definition Quit (w : World) : M unit :=
  close (SimpleResponse "Great chatting with you!").

Definition Hours (w : World) : M unit :=
  let hoursMessage := "Our free weights and machines are available " +:+
    "from 5am - 10pm, seven days a week. Can I help you with anything else?" in
  ask (SimpleResponse hoursMessage) ;;
  c ← get_conv;
  when (screen (request c)) (ask (Suggestions [Suggestion.CLASSES])).

(** A turn started from a daily update carries an [UPDATES] argument: the
    message is then shortened and the session closed. *)
Definition Class_List (w : World) : M unit :=
  c ← get_conv;
  let day := resolve_day w (parameters (request c) !! "day") in
  classes ← classes_of w day;
  let classesMessage :=
    "On " +:+ day +:+ " we offer the following classes: " +:+ classes +:+
    ". " in
  let engagement := arguments (request c) !! "UPDATES" in
  if JS.truthy engagement then
    close (SimpleResponse (classesMessage +:+
                           "Hope to see you soon at Action Gym!"))
  else
    ask (SimpleResponse (classesMessage +:+
      ("Would you like to receive daily reminders of upcoming " +:+
       "classes, subscribe to notifications about cancelations, or can I help " +:+
       "you with anything else?"))) ;;
    when (screen (request c))
      (ask (Suggestions [Suggestion.DAILY; Suggestion.NOTIFICATIONS;
                         Suggestion.HOURS])).

Definition No_Input (w : World) : M unit :=
  c ← get_conv;
  let repromptCount :=
    JS.parseInt (arguments (request c) !! "REPROMPT_COUNT") in
  if JS.num_eq repromptCount 0 then
    ask (SimpleResponse "Sorry, I can't hear you.")
  else if JS.num_eq repromptCount 1 then
    ask (SimpleResponse "I'm sorry, I still can't hear you.")
  else if JS.truthy (arguments (request c) !! "IS_FINAL_REPROMPT") then
    close (SimpleResponse ("I'm sorry, I'm having trouble here. " +:+
                           "Maybe we should try this again later."))
  else mret ().

Definition Fallback (w : World) : M unit :=
  incr_fallbackCount ;;
  c ← get_conv;
  if JS.num_eq (fallbackCount c) 1 then
    ask (SimpleResponse "Sorry, what was that?")
  else if JS.num_eq (fallbackCount c) 2 then
    ask (SimpleResponse ("I didn't quite get that. I can tell you our hours " +:+
                         "or what classes we offer each day."))
  else
    close (SimpleResponse ("Sorry, I'm still having trouble. " +:+
                           "So let's stop here for now. Bye.")).

Definition Setup_Updates (w : World) : M unit :=
  ask (RegisterUpdate "Class List" "DAILY").

Definition Confirm_Updates (w : World) : M unit :=
  c ← get_conv;
  let registered := argument0 (request c) in
  (if JS.truthy registered
      && bool_decide (JS.get_field registered "status" = Some "OK")
   then
     ask (SimpleResponse ("Gotcha, I'll send you an update everyday with the " +:+
                          "list of classes. Can I help you with anything else?"))
   else
     ask (SimpleResponse " I won't send you daily reminders. Can I help you with anything else?")) ;;
  when (screen (request c))
    (ask (Suggestions [Suggestion.HOURS; Suggestion.CLASSES])).

Definition Setup_Push_Notifications (w : World) : M unit :=
  ask (SimpleResponse "Update permission for setting up push notifications") ;;
  ask (UpdatePermission "Class Canceled").

(** With the permission the handler returns the promise of
    [add(...).then(...)], so the suggestion chips after the conditional
    are only reached without it. *)
Definition Confirm_Push_Notifications (w : World) : M unit :=
  c ← get_conv;
  if JS.truthy (arguments (request c) !! "PERMISSION") then
    let userId :=
      match arguments (request c) !! "UPDATES_USER_ID" with
      | Some userId =>
          if negb (JS.truthy (Some userId))
          then JS.AStr (conversationId (request c))
          else userId
      | None => JS.AStr (conversationId (request c))
      end in
    collection_add w (mkDoc "Class Canceled" userId) ;;
    ask (SimpleResponse ("Great, I'll notify you whenever there's a class cancelation. " +:+
                         "Can I help you with anything else?"))
  else
    ask (SimpleResponse ("Okay, I won't send you notifications about class cancelations. " +:+
                         "Can I help you with anything else?")) ;;
    when (screen (request c))
      (ask (Suggestions [Suggestion.CLASSES; Suggestion.HOURS])).

Definition Class_Canceled (w : World) : M unit :=
  ask (SimpleResponse "Classname at classtime has been canceled.").

Definition Cancel_Class (w : World) : M unit :=
  defer (OnAuthorize "Test Notification from Action Gym" "Class Canceled") ;;
  ask (SimpleResponse "A notification has been sent to all subscribed users.").

Definition intents (name : string) : option (World → M unit) :=
  if String.eqb name "Welcome" then Some Welcome
  else if String.eqb name "Quit" then Some Quit
  else if String.eqb name "Hours" then Some Hours
  else if String.eqb name "Class List" then Some Class_List
  else if String.eqb name "No Input" then Some No_Input
  else if String.eqb name "Fallback" then Some Fallback
  else if String.eqb name "Setup Updates" then Some Setup_Updates
  else if String.eqb name "Confirm Updates" then Some Confirm_Updates
  else if String.eqb name "Setup Push Notifications"
    then Some Setup_Push_Notifications
  else if String.eqb name "Confirm Push Notifications"
    then Some Confirm_Push_Notifications
  else if String.eqb name "Class Canceled" then Some Class_Canceled
  else if String.eqb name "Cancel Class" then Some Cancel_Class
  else None.

Definition app : App := mkApp middleware intents.

End UnnamedB.

(** ** [start/functions/index.js] *)

Module Start.

Module Suggestion.
Definition HOURS := "Ask about hours".
Definition CLASSES := "Learn about classes".
End Suggestion.

(** Fallback counting that runs before every intent handler. *)
Definition middleware : M unit :=
  c ← get_conv;
  when (negb (JS.truthy_num (fallbackCount c))
        || negb (String.eqb (intent (request c)) "Fallback"))
    (set_fallbackCount (Some 0)).

Definition Welcome (w : World) : M unit :=
  let welcomeMessage := "Welcome to Action Gym, your local gym here to " +:+
    "support your health goals. You can ask me about our hours " +:+
    "or what classes we offer each day." in
  ask (SimpleResponse welcomeMessage) ;;
  c ← get_conv;
  when (screen (request c))
    (ask (Suggestions [Suggestion.HOURS; Suggestion.CLASSES])).

Definition Quit (w : World) : M unit :=
  close (SimpleResponse "Great chatting with you!").

Definition Hours (w : World) : M unit :=
  let hoursMessage := "Our free weights and machines are available " +:+
    "from 5am - 10pm, seven days a week. Can I help you with anything else?" in
  ask (SimpleResponse hoursMessage) ;;
  c ← get_conv;
  when (screen (request c)) (ask (Suggestions [Suggestion.CLASSES])).

Definition Class_List (w : World) : M unit :=
  c ← get_conv;
  let day := resolve_day w (parameters (request c) !! "day") in
  classes ← classes_of w day;
  let classesMessage :=
    "On " +:+ day +:+ " we offer the following classes: " +:+ classes +:+
    ". " +:+
    "Can I help you with anything else?" in
  ask (SimpleResponse classesMessage) ;;
  when (screen (request c)) (ask (Suggestions [Suggestion.HOURS])).

Definition No_Input (w : World) : M unit :=
  c ← get_conv;
  let repromptCount :=
    JS.parseInt (arguments (request c) !! "REPROMPT_COUNT") in
  if JS.num_eq repromptCount 0 then
    ask (SimpleResponse "Sorry, I can't hear you.")
  else if JS.num_eq repromptCount 1 then
    ask (SimpleResponse "I'm sorry, I still can't hear you.")
  else if JS.truthy (arguments (request c) !! "IS_FINAL_REPROMPT") then
    close (SimpleResponse ("I'm sorry, I'm having trouble here. " +:+
                           "Maybe we should try this again later."))
  else mret ().

Definition Fallback (w : World) : M unit :=
  incr_fallbackCount ;;
  c ← get_conv;
  if JS.num_eq (fallbackCount c) 1 then
    ask (SimpleResponse "Sorry, what was that?")
  else if JS.num_eq (fallbackCount c) 2 then
    ask (SimpleResponse ("I didn't quite get that. I can tell you our hours " +:+
                         "or what classes we offer each day."))
  else
    close (SimpleResponse ("Sorry, I'm still having trouble. " +:+
                           "So let's stop here for now. Bye.")).

Definition intents (name : string) : option (World → M unit) :=
  if String.eqb name "Welcome" then Some Welcome
  else if String.eqb name "Quit" then Some Quit
  else if String.eqb name "Hours" then Some Hours
  else if String.eqb name "Class List" then Some Class_List
  else if String.eqb name "No Input" then Some No_Input
  else if String.eqb name "Fallback" then Some Fallback
  else None.

Definition app : App := mkApp middleware intents.

End Start.

(** ** One webhook request, and what happens after the reply *)

(** The body of a push message: [notification.userNotification.title] and
    [notification.target].  [request.post] serialises the body when it is
    called, so each post carries the target assigned just before it. *)
Record Notification := mkNotification {
  title : string;
  target_userId : JS.ArgValue;
  target_intent : string;
}.

(** What the callbacks do that can be observed from outside. *)
Inductive Event :=
| Post (bearer : string) (customPushMessage : Notification)
| Log (line : string)
| Uncaught (e : Error).

(** The callback given to [request.post]. *)
Definition post_callback (r : PostResult) : list Event :=
  match r with
  | PostError err => [Uncaught (mkError ("API request error: " +:+ err))]
  | PostResponse statusCode statusMessage body =>
      [Log (pretty statusCode +:+ ": " +:+ statusMessage); Log body]
  end.

(** The callback given to [client.authorize].  [forEach] issues every post
    before any post callback can run; the post callbacks are listed after
    them, in the order of the posts.  What the host does once an exception
    is uncaught is not part of the sources: the trace lists what each
    callback does when it runs.  The collection is returned as the
    callbacks leave it. *)
Definition run_callback (w : World) (cb : Callback) (docs : list Doc)
  : list Event * list Doc :=
  match cb with
  | OnAuthorize title topic =>
      match authorize_result w with
      | inl err => ([Uncaught (mkError ("Auth error: " +:+ err))], docs)
      | inr access_token =>
          match query_error w with
          | Some error =>
              ([Uncaught (mkError ("Firestore query error: " +:+ error))],
               docs)
          | None =>
              let querySnapshot := collection_where_intent topic docs in
              (map (λ user, Post access_token
                              (mkNotification title (doc_userId user)
                                              (doc_intent user)))
                   querySnapshot
               ++ mjoin (imap (λ i _, post_callback (post_result w i))
                              querySnapshot),
               docs)
          end
      end
  end.

Fixpoint run_callbacks (w : World) (cbs : list Callback) (docs : list Doc)
  : list Event * list Doc :=
  match cbs with
  | [] => ([], docs)
  | cb :: rest =>
      let '(events, docs1) := run_callback w cb docs in
      let '(events', docs2) := run_callbacks w rest docs1 in
      (events ++ events', docs2)
  end.

(** The library runs the middleware, then the handler registered for the
    intent; an intent without handler is an error. *)
Definition handle (a : App) (w : World) : M unit :=
  app_middleware a ;;
  c ← get_conv;
  match app_intents a (intent (request c)) with
  | Some handler => handler w
  | None =>
      throw (mkError ("Dialogflow IntentHandler not found for intent: " +:+
                      intent (request c)))
  end.

(** The outcome of one request: the reply (the responses and whether the
    session stays open) or the error the turn failed with, the session data
    and the collection afterwards, and what the pending callbacks did. *)
Record Outcome := mkOutcome {
  reply : Result (list Response * bool);
  data_fallbackCount : option Z;
  store : list Doc;
  background : list Event;
}.

(** The error of the library when it serialises a conversation to which
    neither [ask] nor [close] added anything. *)
Definition no_response_error : Error :=
  mkError "No response has been set. Is this being used in an async call that was not returned as a promise to the intent handler?".

(** Once the handler (and the promise it returned, if any) is done, the
    reply is serialised and sent, or the error if the handler threw; a
    conversation without any response cannot be serialised and the turn
    fails.  The callbacks left pending run afterwards. *)
Definition finish (w : World) (rs : Result unit * State) : Outcome :=
  let '(r, st) := rs in
  let '(events, docs') := run_callbacks w (pending st) (users st) in
  mkOutcome
    match r with
    | Done _ =>
        match responses (conv st) with
        | [] => Thrown no_response_error
        | _ :: _ =>
            Done (responses (conv st), expectUserResponse (conv st))
        end
    | Thrown e => Thrown e
    end
    (fallbackCount (conv st)) docs' events.

(** A fresh conversation object is built for every request: the session
    data of the previous reply, nothing said yet, session open. *)
Definition process (a : App) (w : World) (docs : list Doc)
    (count : option Z) (req : Request) : Outcome :=
  finish w (handle a w (mkState (mkConversation req count [] true) docs [])).

(** A session: the platform sends the next turn with the session data of
    the previous reply, and sends no further turn once a reply closed the
    session or a turn failed. *)
Definition session_open (o : Outcome) : bool :=
  match reply o with
  | Done (_, true) => true
  | _ => false
  end.

Fixpoint session (a : App) (docs : list Doc) (count : option Z)
    (turns : list (World * Request)) : list Outcome :=
  match turns with
  | [] => []
  | (w, req) :: rest =>
      let o := process a w docs count req in
      o :: (if session_open o
            then session a (store o) (data_fallbackCount o) rest
            else [])
  end.

(** ** The three versions *)

Inductive version := start | unnamedA | unnamedB.

Definition app_of (v : version) : App :=
  match v with
  | start => Start.app
  | unnamedA => UnnamedA.app
  | unnamedB => UnnamedB.app
  end.

(** The names under which each version registers the intents the
    properties below are about. *)
Definition fallback_intent (v : version) : string :=
  match v with
  | unnamedA => "fallback"
  | _ => "Fallback"
  end.

Definition classList_intent (v : version) : string :=
  match v with
  | unnamedA => "classList"
  | _ => "Class List"
  end.

Definition noInput_intent (v : version) : string :=
  match v with
  | unnamedA => "noInput"
  | _ => "No Input"
  end.

(** [start] has no notifications. *)
Definition optin_intent (v : version) : option string :=
  match v with
  | start => None
  | unnamedA => Some "configurePushNotifications"
  | unnamedB => Some "Confirm Push Notifications"
  end.

Definition trigger_intent (v : version) : option string :=
  match v with
  | start => None
  | unnamedA => Some "cancelClass"
  | unnamedB => Some "Cancel Class"
  end.

(** The topic of class cancellations: the intent a notification opens. *)
Definition topic (v : version) : string :=
  match v with
  | unnamedA => "classCanceled"
  | _ => "Class Canceled"
  end.

(** ** Vocabulary of the properties *)

(** A computation leaves the observation [f] of the state as it was. *)
Definition preserves {A B} (f : State → B) (m : M A) : Prop :=
  ∀ st, f (m st).2 = f st.

Definition count_of (st : State) : option Z := fallbackCount (conv st).

(** The count the middleware leaves. *)
Definition reset_count (v : version) (count : option Z) (req : Request)
  : option Z :=
  if negb (JS.truthy_num count)
     || negb (String.eqb (intent req) (fallback_intent v))
  then Some 0 else count.

(** The count after a fallback turn. *)
Definition next_count (count : option Z) : Z :=
  if JS.truthy_num count then default 0 count + 1 else 1.

(** The three steps of the escalation, as replies: a mild reprompt, a
    reprompt that lists the topics, and the message that closes the
    session. *)
Definition mild : Result (list Response * bool) :=
  Done ([SimpleResponse "Sorry, what was that?"], true).

Definition detailed : Result (list Response * bool) :=
  Done ([SimpleResponse "I didn't quite get that. I can tell you our hours or what classes we offer each day."],
        true).

Definition closing : Result (list Response * bool) :=
  Done ([SimpleResponse "Sorry, I'm still having trouble. So let's stop here for now. Bye."],
        false).

Definition escalation : list (Result (list Response * bool)) :=
  [mild; detailed; closing].

Definition fallback_reply (n : Z) : Result (list Response * bool) :=
  if n =? 1 then mild else if n =? 2 then detailed else closing.

(** The English name of a day of the week. *)
Definition weekday_name (d : weekday) : string :=
  match d with
  | Sunday => "Sunday" | Monday => "Monday" | Tuesday => "Tuesday"
  | Wednesday => "Wednesday" | Thursday => "Thursday" | Friday => "Friday"
  | Saturday => "Saturday"
  end.

(** Deduplication in the order of first occurrence, after the words of the
    specification: the head stays, and is removed from what follows. *)
Fixpoint dedup_first (l : list string) : list string :=
  match l with
  | [] => []
  | x :: l' => x :: filter (λ y, y ≠ x) (dedup_first l')
  end.

(** The replies of the opt-in handlers. *)
Definition success_message (v : version) : string :=
  match v with
  | unnamedA =>
      "Cool, I'll notify you whenever there is a cancelation. Would you like anything else?"
  | _ =>
      "Great, I'll notify you whenever there's a class cancelation. Can I help you with anything else?"
  end.

Definition decline_message (v : version) : string :=
  match v with
  | unnamedA => "Okay, I won't notify you. Would you like anything else?"
  | _ =>
      "Okay, I won't send you notifications about class cancelations. Can I help you with anything else?"
  end.

(** The user identifier an opt-in stores. *)
Definition userId_of (req : Request) : JS.ArgValue :=
  match arguments req !! "UPDATES_USER_ID" with
  | Some userId =>
      if JS.truthy (Some userId) then userId
      else JS.AStr (conversationId req)
  | None => JS.AStr (conversationId req)
  end.

(** The reply of the trigger handlers, the title they give the
    notification, and the notification sent to a subscriber. *)
Definition confirmation : Result (list Response * bool) :=
  Done ([SimpleResponse "A notification has been sent to all subscribed users."],
        true).

Definition notification_title (v : version) : string :=
  match v with
  | unnamedA => "Notification Title"
  | _ => "Test Notification from Action Gym"
  end.

Definition notification_for (v : version) (user : Doc) : Notification :=
  mkNotification (notification_title v) (doc_userId user) (doc_intent user).

(** The push messages among the events. *)
Definition posts (events : list Event) : list Notification :=
  omap (λ e, match e with Post _ n => Some n | _ => None end) events.


(** ** Concrete requests *)

(** A Monday with the schedule of the specification's example; the first
    delivery of a batch times out, the others are accepted. *)
Definition gym_world : World :=
  mkWorld
    {[ "Monday" := [mkEntry "Yoga" "6am"; mkEntry "Yoga" "6am";
                    mkEntry "Spin" "7am"] ]}
    Monday None (inr "token") None
    (λ i, match i with
          | O => PostError "ETIMEDOUT"
          | S _ => PostResponse 200 "OK" "{}"
          end).

Definition request_of (name : string) : Request :=
  mkRequest name ∅ ∅ None true "conversation-1".

Definition four_fallbacks : list (World * Request) :=
  replicate 4 (gym_world, request_of "fallback").

Definition optin_request : Request :=
  mkRequest "Confirm Push Notifications" ∅
            {[ "PERMISSION" := JS.ABool true;
               "UPDATES_USER_ID" := JS.AStr "user-7" ]}
            None true "conversation-1".

Definition funday_request : Request :=
  mkRequest "Class List" {[ "day" := "Funday" ]} ∅ None false
            "conversation-1".

Definition late_noInput : Request :=
  mkRequest "noInput" ∅ {[ "REPROMPT_COUNT" := JS.AStr "2" ]} None true
            "conversation-1".

Definition cancel_request : Request :=
  mkRequest "cancelClass" ∅ ∅ None false "conversation-1".

Definition one_subscriber : list Doc :=
  [mkDoc "classCanceled" (JS.AStr "user-1")].

Definition two_subscribers : list Doc :=
  [mkDoc "classCanceled" (JS.AStr "user-1");
   mkDoc "Class Canceled" (JS.AStr "user-2");
   mkDoc "classCanceled" (JS.AStr "user-3")].


(** ** Further vocabulary *)

(** The name of the quit intent. *)
Definition quit_intent (v : version) : string :=
  match v with
  | unnamedA => "quit"
  | _ => "Quit"
  end.

(** The lines written to the console among the events. *)
Definition logs (events : list Event) : list string :=
  omap (λ e, match e with Log line => Some line | _ => None end) events.

(** The same world on another day of the week. *)
Definition with_today (w : World) (d : weekday) : World :=
  mkWorld (schedule_days w) d (add_error w) (authorize_result w)
          (query_error w) (post_result w).

(** The same world with other entries scheduled on a day. *)
Definition with_entries (w : World) (day : string)
    (entries : list ScheduleEntry) : World :=
  mkWorld (<[day := entries]> (schedule_days w)) (today w) (add_error w)
          (authorize_result w) (query_error w) (post_result w).

(** ** Further concrete requests *)

(** A request from a device without a screen. *)
Definition voice_request (name : string) : Request :=
  mkRequest name ∅ ∅ None false "conversation-1".

Definition first_noInput : Request :=
  mkRequest "No Input" ∅
            {[ "REPROMPT_COUNT" := JS.AStr "0";
               "IS_FINAL_REPROMPT" := JS.ABool true ]}
            None true "conversation-1".

Definition monday_request : Request :=
  mkRequest "Class List" {[ "day" := "Monday" ]} ∅ None true
            "conversation-1".

(** A class-list turn started from a daily update. *)
Definition digest_request : Request :=
  mkRequest "Class List" ∅ {[ "UPDATES" := JS.AObj ∅ ]} None true
            "conversation-1".

Definition trigger_request : Request :=
  mkRequest "Cancel Class" ∅ ∅ None false "conversation-1".

(** The authorisation is refused. *)
Definition unauthorized_world : World :=
  mkWorld ∅ Monday None (inl "invalid_grant") None
          (λ _, PostError "ETIMEDOUT").

(** Every delivery is accepted. *)
Definition delivering_world : World :=
  mkWorld ∅ Monday None (inr "token") None (λ _, PostResponse 200 "OK" "{}").

(** A Tuesday with two different classes. *)
Definition tuesday_world : World :=
  mkWorld {[ "Tuesday" := [mkEntry "Yoga" "6am"; mkEntry "Spin" "7am"] ]}
          Tuesday None (inr "token") None (λ _, PostResponse 200 "OK" "{}").

(** ** The reply of a class-list turn *)

(** The string that stands for a schedule entry in the list. *)
Definition name_at_time (d : ScheduleEntry) : string :=
  name d +:+ " at " +:+ startTime d.

(** What follows the list of classes in the message, the chips that come
    with it and whether the session stays open. *)
Definition classList_tail (v : version) (req : Request) : string :=
  match v with
  | start => ". Can I help you with anything else?"
  | unnamedA =>
      ". If you'd like, I can send you reminders about our classes. Can I help you with anything else?"
  | unnamedB =>
      if JS.truthy (arguments req !! "UPDATES")
      then ". Hope to see you soon at Action Gym!"
      else ". Would you like to receive daily reminders of upcoming classes, subscribe to notifications about cancelations, or can I help you with anything else?"
  end.

Definition classList_chips (v : version) (req : Request) : list Response :=
  if screen req then
    match v with
    | start => [Suggestions ["Ask about hours"]]
    | unnamedA =>
        [Suggestions ["Ask about hours"; "Set reminders";
                      "Class cancellation"]]
    | unnamedB =>
        if JS.truthy (arguments req !! "UPDATES") then []
        else [Suggestions ["Send daily reminders"; "Get notifications";
                           "Ask about hours"]]
    end
  else [].

Definition classList_open (v : version) (req : Request) : bool :=
  match v with
  | unnamedB => negb (JS.truthy (arguments req !! "UPDATES"))
  | _ => true
  end.

(** The outcome of a class-list turn that names [day] and lists [classes],
    separated by a comma and a space ([String.concat] is the Standard
    Library's). *)
Definition classList_outcome (v : version) (req : Request) (day : string)
    (classes : list string) (docs : list Doc) : Outcome :=
  mkOutcome
    (Done (SimpleResponse
             ("On " +:+ day +:+ " we offer the following classes: " +:+
              String.concat ", " classes +:+ classList_tail v req)
           :: classList_chips v req,
           classList_open v req))
    (Some 0) docs [].

(** A sentence of the specification, read on the model: the turn produces
    an empty response. *)
Definition empty_response (o : Outcome) : Prop :=
  ∃ open, reply o = Done ([], open).

(** * Properties *)

(** ** Frame lemmas: what the handlers leave untouched *)

Lemma preserves_ret {A B} (f : State → B) (a : A) : preserves f (mret a).
Proof. by intros st. Qed.

Lemma preserves_throw {A B} (f : State → B) (e : Error) :
  preserves f (throw e : M A).
Proof. by intros st. Qed.

Lemma preserves_bind {A A' B} (f : State → B) (m : M A) (k : A → M A') :
  preserves f m → (∀ a, preserves f (k a)) → preserves f (m ≫= k).
Proof.
  intros Hm Hk st. unfold mbind, M_bind.
  specialize (Hm st). destruct (m st) as [[a|e] st']; simpl in *.
  - by rewrite Hk.
  - done.
Qed.

Lemma preserves_when {B} (f : State → B) (b : bool) (m : M unit) :
  preserves f m → preserves f (when b m).
Proof. destruct b; [done | intros _; apply preserves_ret]. Qed.

Lemma preserves_get_conv {B} (f : State → B) : preserves f get_conv.
Proof. by intros st. Qed.

Lemma ask_count r : preserves count_of (ask r).
Proof. by intros st. Qed.
Lemma close_count r : preserves count_of (close r).
Proof. by intros st. Qed.
Lemma ask_users r : preserves users (ask r).
Proof. by intros st. Qed.
Lemma close_users r : preserves users (close r).
Proof. by intros st. Qed.
Lemma set_fallbackCount_users n : preserves users (set_fallbackCount n).
Proof. by intros st. Qed.
Lemma defer_count cb : preserves count_of (defer cb).
Proof. by intros st. Qed.
Lemma defer_users cb : preserves users (defer cb).
Proof. by intros st. Qed.
Lemma collection_add_count w d : preserves count_of (collection_add w d).
Proof. intros st. unfold collection_add. by destruct (add_error w). Qed.
Lemma classes_of_preserves {B} (f : State → B) w day :
  preserves f (classes_of w day).
Proof. intros st. unfold classes_of. by destruct (schedule_days w !! day). Qed.

Create HintDb frame.
#[local] Hint Resolve preserves_ret preserves_throw preserves_when
  preserves_get_conv ask_count close_count ask_users close_users
  set_fallbackCount_users defer_count defer_users collection_add_count
  classes_of_preserves : frame.

Ltac frame :=
  repeat first
    [ solve [ auto with frame ]
    | apply preserves_bind; [ | intros ? ]
    | match goal with |- preserves _ (if ?b then _ else _) => destruct b end
    | match goal with |- preserves _ (let _ := _ in _) => cbv zeta end ].

Ltac split_intents H name :=
  repeat match type of H with
  | (if String.eqb name ?s then _ else _) = _ =>
      destruct (String.eqb_spec name s); [ injection H as <- | ]
  end; try discriminate; try congruence.

Ltac unfold_handlers :=
  unfold UnnamedA.welcome, UnnamedA.quit, UnnamedA.hours, UnnamedA.classList,
    UnnamedA.noInput, UnnamedA.fallback, UnnamedA.reminder,
    UnnamedA.notification, UnnamedA.setupPushNotifications,
    UnnamedA.configurePushNotifications, UnnamedA.classCanceled,
    UnnamedA.setupUpdates, UnnamedA.configureUpdates, UnnamedA.setupRoutine,
    UnnamedA.configureRoutine, UnnamedA.cancelClass,
    UnnamedB.Welcome, UnnamedB.Quit, UnnamedB.Hours, UnnamedB.Class_List,
    UnnamedB.No_Input, UnnamedB.Fallback, UnnamedB.Setup_Updates,
    UnnamedB.Confirm_Updates, UnnamedB.Setup_Push_Notifications,
    UnnamedB.Confirm_Push_Notifications, UnnamedB.Class_Canceled,
    UnnamedB.Cancel_Class,
    Start.Welcome, Start.Quit, Start.Hours, Start.Class_List,
    Start.No_Input, Start.Fallback.

(** ** The middleware and the dispatch *)

Lemma handlers_keep_count v name h w :
  app_intents (app_of v) name = Some h → name ≠ fallback_intent v →
  preserves count_of (h w).
Proof.
  intros H Hne.
  destruct v; simpl in H, Hne;
    unfold Start.intents, UnnamedA.intents, UnnamedB.intents in H;
    split_intents H name; unfold_handlers; frame.
Qed.

Lemma middleware_spec v req count rs open docs cbs :
  app_middleware (app_of v)
    (mkState (mkConversation req count rs open) docs cbs)
  = (Done (),
     mkState (mkConversation req (reset_count v count req) rs open) docs cbs).
Proof.
  unfold reset_count.
  destruct v; simpl;
    unfold Start.middleware, UnnamedA.middleware, UnnamedB.middleware;
    unfold mbind, M_bind; simpl;
    match goal with |- context [when ?b _] => destruct b end; reflexivity.
Qed.

Lemma handle_spec v w req count docs :
  handle (app_of v) w (mkState (mkConversation req count [] true) docs [])
  = match app_intents (app_of v) (intent req) with
    | Some handler =>
        handler w (mkState (mkConversation req (reset_count v count req)
                                           [] true) docs [])
    | None =>
        (Thrown (mkError ("Dialogflow IntentHandler not found for intent: "
                          +:+ intent req)),
         mkState (mkConversation req (reset_count v count req) [] true)
                 docs [])
    end.
Proof.
  unfold handle. unfold mbind at 1, M_bind at 1.
  rewrite middleware_spec. unfold mbind, M_bind, get_conv; simpl.
  by destruct (app_intents (app_of v) (intent req)).
Qed.

Lemma finish_count w rs : data_fallbackCount (finish w rs) = count_of rs.2.
Proof.
  destruct rs as [r st]; simpl. by destruct (run_callbacks w _ _).
Qed.

(** C5.  After a turn whose intent is not the fallback intent the session's
    fallback count is 0, whatever it was before the turn, whichever handler
    ran (or none, for an intent that has no handler) and whether or not the
    turn failed. *)
Theorem counter_reset v w docs count req :
  intent req ≠ fallback_intent v →
  data_fallbackCount (process (app_of v) w docs count req) = Some 0.
Proof.
  intros Hne. unfold process. rewrite finish_count, handle_spec.
  assert (Hreset : reset_count v count req = Some 0).
  { unfold reset_count.
    destruct (String.eqb_spec (intent req) (fallback_intent v)); [done|].
    by rewrite orb_true_r. }
  rewrite Hreset.
  destruct (app_intents (app_of v) (intent req)) as [h|] eqn:Hh; [|done].
  by rewrite (handlers_keep_count v _ h w Hh Hne).
Qed.

(** ** The fallback counter *)

Lemma fallback_turn v w docs count req :
  intent req = fallback_intent v →
  process (app_of v) w docs count req =
    let n := if JS.truthy_num count then default 0 count + 1 else 1 in
    mkOutcome (fallback_reply n) (Some n) docs [].
Proof.
  intros Hi. unfold process. rewrite handle_spec.
  assert (Hreset : reset_count v count req
                   = Some (if JS.truthy_num count then default 0 count else 0)).
  { unfold reset_count. rewrite Hi, String.eqb_refl, orb_false_r.
    destruct count as [n|]; simpl; [|done]. by destruct (n =? 0). }
  rewrite Hreset, Hi. clear Hreset.
  set (n0 := if JS.truthy_num count then default 0 count else 0).
  replace (if JS.truthy_num count then default 0 count + 1 else 1)
    with (n0 + 1) by (unfold n0; by destruct (JS.truthy_num count)).
  unfold fallback_reply.
  destruct v; simpl; unfold_handlers; unfold incr_fallbackCount.
  all: unfold mbind, M_bind; simpl.
  all: generalize (n0 + 1); intros n.
  all: destruct (n =? 1); [reflexivity|]; destruct (n =? 2); reflexivity.
Qed.

Lemma session_cons a docs count w req rest :
  session a docs count ((w, req) :: rest) =
    let o := process a w docs count req in
    o :: (if session_open o
          then session a (store o) (data_fallbackCount o) rest
          else []).
Proof. reflexivity. Qed.

#[local] Arguments session : simpl never.
#[local] Arguments process : simpl never.

Lemma session_fallback_cons v docs count w req rest :
  intent req = fallback_intent v →
  session (app_of v) docs count ((w, req) :: rest) =
    mkOutcome (fallback_reply (next_count count)) (Some (next_count count))
              docs []
    :: (if (next_count count =? 1) || (next_count count =? 2)
        then session (app_of v) docs (Some (next_count count)) rest
        else []).
Proof.
  intros Hi. rewrite session_cons, (fallback_turn _ _ _ _ _ Hi).
  fold (next_count count). cbv zeta. unfold session_open, fallback_reply.
  simpl. by destruct (next_count count =? 1), (next_count count =? 2).
Qed.

(** C1.  A session that starts with no fallback counted (the count is 0 or
    not yet set) and receives only fallback turns replies, in this order,
    with the mild reprompt, the reprompt that lists the topics, and the
    closing message; the third reply, and no earlier one, ends the session,
    and no turn is served after it. *)
Theorem fallback_escalation v docs count (turns : list (World * Request)) :
  JS.truthy_num count = false →
  Forall (λ t, intent t.2 = fallback_intent v) turns →
  let outcomes := session (app_of v) docs count turns in
  map reply outcomes = take (length turns) escalation
  ∧ (∀ i o, outcomes !! i = Some o → session_open o = false ↔ i = 2%nat)
  ∧ length outcomes = (length turns `min` 3)%nat.
Proof.
  intros Hc Hall outcomes.
  assert (H0 : next_count count = 1) by (unfold next_count; by rewrite Hc).
  assert (Hs : outcomes = take (length turns)
            [mkOutcome mild (Some 1) docs [];
             mkOutcome detailed (Some 2) docs [];
             mkOutcome closing (Some 3) docs []]).
  { subst outcomes.
    destruct turns as [|[w1 r1] [|[w2 r2] [|[w3 r3] rest]]];
      repeat match goal with
      | H : Forall _ (_ :: _) |- _ => apply Forall_cons in H as [? H]
      end;
      repeat (rewrite session_fallback_cons by done; rewrite ?H0;
              cbn [Z.eqb Pos.eqb orb next_count JS.truthy_num negb default
                   Z.add Pos.add Pos.succ fallback_reply]);
      cbn [length take]; rewrite ?take_nil; reflexivity. }
  rewrite Hs. clear Hs outcomes. unfold escalation.
  destruct turns as [|t1 [|t2 [|t3 rest]]]; cbn [length take];
    rewrite ?take_nil; (split; [done | split; [ | simpl; lia ]]);
    intros i o Hio.
  - by destruct i.
  - destruct i as [|i]; simplify_eq/=; by split.
  - destruct i as [|[|i]]; simplify_eq/=; by split.
  - destruct i as [|[|[|i]]]; simplify_eq/=; by split.
Qed.

(** ** No input, and the class list *)

#[local] Arguments JS.parseInt : simpl never.
#[local] Arguments JS.truthy : simpl never.
#[local] Arguments JS.truthy_str : simpl never.
#[local] Arguments resolve_day : simpl never.
#[local] Arguments classes_of : simpl never.

Lemma reset_count_other v count req :
  intent req ≠ fallback_intent v → reset_count v count req = Some 0.
Proof.
  intros Hne. unfold reset_count.
  destruct (String.eqb_spec (intent req) (fallback_intent v)); [done|].
  by rewrite orb_true_r.
Qed.

Lemma num_eq_false x n : x ≠ Some n → JS.num_eq x n = false.
Proof.
  destruct x as [m|]; simpl; [|done]. intros H.
  destruct (Z.eqb_spec m n); congruence.
Qed.

(** C10, amended.  In a no-input turn whose [REPROMPT_COUNT] parses neither
    to 0 nor to 1 (in particular when it does not parse at all) and whose
    [IS_FINAL_REPROMPT] is absent or false, the handler adds no response: it
    neither asks nor closes and leaves the conversation as it found it.  The
    turn then has no reply: the library cannot serialise it and the turn
    fails with its error. *)
Theorem noInput_silent v w docs count req :
  intent req = noInput_intent v →
  JS.parseInt (arguments req !! "REPROMPT_COUNT") ≠ Some 0 →
  JS.parseInt (arguments req !! "REPROMPT_COUNT") ≠ Some 1 →
  JS.truthy (arguments req !! "IS_FINAL_REPROMPT") = false →
  (∃ handler,
     app_intents (app_of v) (intent req) = Some handler
     ∧ ∀ st, request (conv st) = req → handler w st = (Done (), st))
  ∧ process (app_of v) w docs count req
    = mkOutcome (Thrown no_response_error) (Some 0) docs [].
Proof.
  intros Hi H0 H1 Hfinal. split.
  - rewrite Hi.
    destruct v; simpl; eexists; (split; [reflexivity|]); intros st <-;
      unfold_handlers; unfold mbind, M_bind; simpl;
      rewrite (num_eq_false _ _ H0), (num_eq_false _ _ H1), Hfinal;
      reflexivity.
  - unfold process.
    rewrite handle_spec, reset_count_other by (rewrite Hi; by destruct v).
    rewrite Hi.
    destruct v; simpl; unfold_handlers; unfold mbind, M_bind; simpl;
      rewrite (num_eq_false _ _ H0), (num_eq_false _ _ H1), Hfinal;
      reflexivity.
Qed.

(** C10 as stated fails: at a second reprompt that is not final the turn
    produces no empty response, it fails. *)
Lemma noInput_silent_no_reply :
  reply (process (app_of unnamedA) gym_world [] None late_noInput)
  = Thrown no_response_error
  ∧ ¬ empty_response
        (process (app_of unnamedA) gym_world [] None late_noInput).
Proof. split; [reflexivity|]. intros [open Hopen]. discriminate Hopen. Qed.

(** C8.  When the schedule has no entry for the resolved day, the class-list
    turn fails with the TypeError of the lookup: nothing guards it, no
    response is added, nothing else happens. *)
Theorem classList_missing_day v w docs count req :
  intent req = classList_intent v →
  schedule_days w !! resolve_day w (parameters req !! "day") = None →
  process (app_of v) w docs count req
  = mkOutcome (Thrown TypeError) (Some 0) docs [].
Proof.
  intros Hi Hday. unfold process.
  rewrite handle_spec, reset_count_other by (rewrite Hi; by destruct v).
  rewrite Hi.
  destruct v; simpl; unfold_handlers; unfold mbind, M_bind; simpl;
    unfold classes_of; rewrite Hday; reflexivity.
Qed.

Lemma resolve_day_default w day :
  JS.truthy_str day = false → resolve_day w day = weekday_name (today w).
Proof.
  unfold resolve_day, DAYS_today. intros H.
  destruct day as [d|]; [rewrite H|]; by destruct (today w).
Qed.

Section Dedup.

Lemma fold_set_add l acc :
  fold_left JS.set_add l acc
  = acc ++ filter (λ y, y ∉ acc) (dedup_first l).
Proof.
  revert acc. induction l as [|x l IH]; intros acc; simpl.
  { by rewrite app_nil_r. }
  rewrite IH. unfold JS.set_add. case_bool_decide as Hx.
  - rewrite filter_cons_False by (intros ?; done).
    rewrite list_filter_filter_l; [done|]. intros y Hy ->. done.
  - rewrite filter_cons_True by done.
    rewrite list_filter_filter, <- app_assoc. simpl. do 2 f_equal.
    apply list_filter_iff. intros y. rewrite elem_of_app, list_elem_of_singleton.
    tauto.
Qed.

Lemma filter_all (P : string → Prop) `{!∀ x, Decision (P x)}
    (l : list string) :
  (∀ x, P x) → filter P l = l.
Proof.
  intros HP. induction l as [|x l IH]; [done|].
  by rewrite filter_cons_True, IH.
Qed.

Lemma new_Set_dedup_first l : JS.new_Set l = dedup_first l.
Proof.
  unfold JS.new_Set. rewrite fold_set_add. simpl.
  apply filter_all. intros y. apply not_elem_of_nil.
Qed.

Lemma dedup_first_elem_of l s : s ∈ dedup_first l ↔ s ∈ l.
Proof.
  induction l as [|x l IH]; simpl; [done|].
  rewrite !elem_of_cons, list_elem_of_filter, IH.
  destruct (decide (s = x)); tauto.
Qed.

Lemma dedup_first_NoDup l : NoDup (dedup_first l).
Proof.
  induction l as [|x l IH]; simpl; [constructor|].
  constructor; [|apply NoDup_filter, IH].
  rewrite list_elem_of_filter. tauto.
Qed.

Lemma filter_split (P : string → Prop) `{!∀ x, Decision (P x)}
    (l o1 : list string) a o2 :
  filter P l = o1 ++ a :: o2 →
  ∃ l1 l2, l = l1 ++ a :: l2 ∧ filter P l1 = o1 ∧ filter P l2 = o2.
Proof.
  revert o1. induction l as [|x l IH]; intros o1 Hf.
  { by destruct o1. }
  rewrite filter_cons in Hf. destruct (decide (P x)) as [Hx|Hx].
  - destruct o1 as [|y o1]; simpl in Hf; injection Hf as <- Hf.
    + exists [], l. by rewrite Hf.
    + destruct (IH _ Hf) as (l1 & l2 & -> & <- & <-).
      exists (x :: l1), l2. by rewrite filter_cons_True.
  - destruct (IH _ Hf) as (l1 & l2 & -> & <- & <-).
    exists (x :: l1), l2. by rewrite filter_cons_False.
Qed.

Lemma dedup_first_order l o1 a o2 b o3 :
  dedup_first l = o1 ++ a :: o2 ++ b :: o3 →
  ∃ l1 l2, l = l1 ++ a :: l2 ∧ (a ∉ l1) ∧ (b ∉ l1).
Proof.
  revert o1 o2 o3. induction l as [|x l IH]; intros o1 o2 o3 H; simpl in H.
  { by destruct o1. }
  destruct o1 as [|y o1]; simpl in H; injection H as <- H.
  { exists [], l. split; [done|]. split; apply not_elem_of_nil. }
  assert (Hne : ∀ c, c ∈ o1 ++ a :: o2 ++ b :: o3 → c ≠ x).
  { intros c. rewrite <- H, list_elem_of_filter. tauto. }
  destruct (filter_split _ _ _ _ _ H) as (d1 & d2 & Hd & _ & H2).
  destruct (filter_split _ _ _ _ _ H2) as (e1 & e2 & -> & _ & _).
  destruct (IH _ _ _ Hd) as (l1 & l2 & -> & Ha & Hb).
  exists (x :: l1), l2. split; [done|].
  rewrite !not_elem_of_cons. repeat split; try done; apply Hne.
  - rewrite elem_of_app, elem_of_cons. auto.
  - rewrite elem_of_app, elem_of_cons, elem_of_app, elem_of_cons. auto.
Qed.

End Dedup.

Lemma string_app_assoc (s1 s2 s3 : string) :
  (s1 +:+ s2) +:+ s3 = s1 +:+ (s2 +:+ s3).
Proof.
  induction s1 as [|c s1 IH]; [reflexivity|].
  change (String c ((s1 +:+ s2) +:+ s3) = String c (s1 +:+ s2 +:+ s3)).
  by rewrite IH.
Qed.

Lemma join_concat sep (l : list string) :
  JS.join sep l = String.concat sep l.
Proof.
  induction l as [|x [|y l] IH]; [done..|].
  change (x +:+ sep +:+ JS.join sep (y :: l)
          = x +:+ sep +:+ String.concat sep (y :: l)).
  by rewrite IH.
Qed.

(** A class-list turn, whatever the day: the message names the resolved day
    and lists the strings of its entries, first occurrences only. *)
Lemma classList_turn v w docs count req :
  intent req = classList_intent v →
  process (app_of v) w docs count req
  = match schedule_days w !! resolve_day w (parameters req !! "day") with
    | Some entries =>
        classList_outcome v req (resolve_day w (parameters req !! "day"))
                          (dedup_first (map name_at_time entries)) docs
    | None => mkOutcome (Thrown TypeError) (Some 0) docs []
    end.
Proof.
  intros Hi. unfold process.
  rewrite handle_spec, reset_count_other by (rewrite Hi; by destruct v).
  rewrite Hi. unfold classList_outcome, classList_tail, classList_chips,
    classList_open.
  destruct v; simpl; unfold_handlers; unfold mbind, M_bind; simpl;
    unfold classes_of;
    (destruct (schedule_days w !! resolve_day w (parameters req !! "day"))
       as [entries|]; [|reflexivity]); simpl;
    rewrite join_concat, new_Set_dedup_first;
    change (class_strings entries) with (map name_at_time entries).
  - by destruct (screen req).
  - by destruct (screen req).
  - destruct (JS.truthy (arguments req !! "UPDATES")), (screen req); simpl;
      by rewrite !string_app_assoc.
Qed.

(** C6.  The class list of a day is made of the strings "name at time" of
    its entries, each kept once, in the order of their first occurrence,
    joined with ", ": the reply is exactly the message that names the day
    and lists them.  For the entries (Yoga, 6am), (Yoga, 6am), (Spin, 7am)
    it lists "Yoga at 6am, Spin at 7am". *)
Theorem class_list_dedup v w docs count req entries :
  intent req = classList_intent v →
  schedule_days w !! resolve_day w (parameters req !! "day") = Some entries →
  ∃ classes,
    process (app_of v) w docs count req
    = classList_outcome v req (resolve_day w (parameters req !! "day"))
                        classes docs
    ∧ NoDup classes
    ∧ (∀ s, s ∈ classes ↔ ∃ d, d ∈ entries ∧ s = name_at_time d)
    ∧ (∀ o1 a o2 b o3,
         classes = o1 ++ a :: o2 ++ b :: o3 →
         ∃ l1 l2, map name_at_time entries = l1 ++ a :: l2
                  ∧ (a ∉ l1) ∧ (b ∉ l1))
    ∧ (entries = [mkEntry "Yoga" "6am"; mkEntry "Yoga" "6am";
                  mkEntry "Spin" "7am"] →
       String.concat ", " classes = "Yoga at 6am, Spin at 7am").
Proof.
  intros Hi Hday.
  exists (dedup_first (map name_at_time entries)).
  split; [by rewrite (classList_turn _ _ _ _ _ Hi), Hday|].
  split; [apply dedup_first_NoDup|].
  split.
  { intros s. rewrite dedup_first_elem_of, list_elem_of_fmap.
    split; intros (d & ? & ?); by exists d. }
  split; [apply dedup_first_order|].
  by intros ->.
Qed.

(** C9.  A class-list request without a [day] parameter (absent or empty)
    is answered for the current day of the week: the reply names that day
    and lists the classes the schedule has under its name, and the turn
    fails when the schedule has none. *)
Theorem classList_default_day v w docs count req :
  intent req = classList_intent v →
  JS.truthy_str (parameters req !! "day") = false →
  process (app_of v) w docs count req
  = match schedule_days w !! weekday_name (today w) with
    | Some entries =>
        classList_outcome v req (weekday_name (today w))
                          (dedup_first (map name_at_time entries)) docs
    | None => mkOutcome (Thrown TypeError) (Some 0) docs []
    end.
Proof.
  intros Hi Hday.
  by rewrite (classList_turn _ _ _ _ _ Hi), (resolve_day_default _ _ Hday).
Qed.

(** ** Notifications: opt-in and dispatch *)

Lemma run_callback_docs w cb docs : (run_callback w cb docs).2 = docs.
Proof.
  destruct cb; simpl. destruct (authorize_result w); [done|].
  by destruct (query_error w).
Qed.

Lemma run_callbacks_docs w cbs docs : (run_callbacks w cbs docs).2 = docs.
Proof.
  revert docs. induction cbs as [|cb cbs IH]; intros docs; simpl; [done|].
  pose proof (run_callback_docs w cb docs) as H1.
  destruct (run_callback w cb docs) as [ev1 docs1]; simpl in H1; subst.
  specialize (IH docs). by destruct (run_callbacks w cbs docs).
Qed.

Lemma finish_store w rs : store (finish w rs) = users rs.2.
Proof.
  destruct rs as [r st]; simpl.
  pose proof (run_callbacks_docs w (pending st) (users st)) as H.
  by destruct (run_callbacks w _ _).
Qed.

Lemma finish_reply w rs :
  reply (finish w rs)
  = match rs.1 with
    | Done _ =>
        match responses (conv rs.2) with
        | [] => Thrown no_response_error
        | _ :: _ =>
            Done (responses (conv rs.2), expectUserResponse (conv rs.2))
        end
    | Thrown e => Thrown e
    end.
Proof. destruct rs as [r st]; simpl. by destruct (run_callbacks w _ _). Qed.

Lemma finish_background w rs :
  background (finish w rs) = (run_callbacks w (pending rs.2) (users rs.2)).1.
Proof. destruct rs as [r st]; simpl. by destruct (run_callbacks w _ _). Qed.

Lemma optin_not_fallback v req :
  optin_intent v = Some (intent req) → intent req ≠ fallback_intent v.
Proof. destruct v; simpl; intros [= <-]; done. Qed.

Lemma trigger_not_fallback v req :
  trigger_intent v = Some (intent req) → intent req ≠ fallback_intent v.
Proof. destruct v; simpl; intros [= <-]; done. Qed.

Lemma optin_granted v w docs count req :
  optin_intent v = Some (intent req) →
  JS.truthy (arguments req !! "PERMISSION") = true →
  process (app_of v) w docs count req
  = match add_error w with
    | None =>
        mkOutcome (Done ([SimpleResponse (success_message v)], true))
                  (Some 0) (docs ++ [mkDoc (topic v) (userId_of req)]) []
    | Some e => mkOutcome (Thrown (mkError e)) (Some 0) docs []
    end.
Proof.
  intros Hi Hp. unfold process.
  rewrite handle_spec, reset_count_other by by apply optin_not_fallback.
  destruct v; simpl in Hi; [done| |]; injection Hi as <-; simpl;
    unfold_handlers; unfold mbind, M_bind; simpl; rewrite Hp;
    unfold collection_add, userId_of; simpl;
    destruct (arguments req !! "UPDATES_USER_ID") as [u|];
    try destruct (JS.truthy (Some u)); simpl;
    destruct (add_error w); reflexivity.
Qed.

Lemma optin_declined v w docs count req :
  optin_intent v = Some (intent req) →
  JS.truthy (arguments req !! "PERMISSION") = false →
  ∃ rest,
    process (app_of v) w docs count req
    = mkOutcome (Done (SimpleResponse (decline_message v) :: rest, true))
                (Some 0) docs [].
Proof.
  intros Hi Hp. unfold process.
  rewrite handle_spec, reset_count_other by by apply optin_not_fallback.
  destruct v; simpl in Hi; [done| |]; injection Hi as <-; simpl;
    unfold_handlers; unfold mbind, M_bind; simpl; rewrite Hp; simpl;
    try destruct (screen req); simpl; eauto.
Qed.


(** The handler of a trigger turn returns with the reply complete and the
    authorize callback still pending. *)
Lemma trigger_handle v w docs count req :
  trigger_intent v = Some (intent req) →
  handle (app_of v) w (mkState (mkConversation req count [] true) docs [])
  = (Done (),
     mkState (mkConversation req (Some 0)
                [SimpleResponse "A notification has been sent to all subscribed users."]
                true)
             docs [OnAuthorize (notification_title v) (topic v)]).
Proof.
  intros Hi.
  rewrite handle_spec, reset_count_other by by apply trigger_not_fallback.
  destruct v; simpl in Hi; [done| |]; injection Hi as <-; reflexivity.
Qed.

Lemma posts_app l1 l2 : posts (l1 ++ l2) = posts l1 ++ posts l2.
Proof. apply omap_app. Qed.

Lemma posts_map_Post bearer (ns : list Notification) :
  posts (map (Post bearer) ns) = ns.
Proof. induction ns as [|n ns IH]; simpl; [done | by rewrite IH]. Qed.

Lemma posts_post_callback r : posts (post_callback r) = [].
Proof. by destruct r. Qed.

Lemma posts_callbacks (f : nat → PostResult) (l : list Doc) :
  posts (mjoin (imap (λ i _, post_callback (f i)) l)) = [].
Proof.
  revert f. induction l as [|d l IH]; intros f; simpl; [done|].
  rewrite posts_app, posts_post_callback. simpl. apply (IH (f ∘ S)).
Qed.

Lemma trigger_background v w docs count req :
  trigger_intent v = Some (intent req) →
  background (process (app_of v) w docs count req)
  = match authorize_result w with
    | inl err => [Uncaught (mkError ("Auth error: " +:+ err))]
    | inr access_token =>
        match query_error w with
        | Some error =>
            [Uncaught (mkError ("Firestore query error: " +:+ error))]
        | None =>
            let subscribers := collection_where_intent (topic v) docs in
            map (Post access_token) (map (notification_for v) subscribers)
            ++ mjoin (imap (λ i _, post_callback (post_result w i))
                           subscribers)
        end
    end.
Proof.
  intros Hi. unfold process.
  rewrite finish_background, (trigger_handle _ _ _ _ _ Hi). simpl.
  destruct (authorize_result w); [done|].
  destruct (query_error w); [done|]. simpl.
  by rewrite app_nil_r, map_map.
Qed.

(** C4.  A trigger turn replies with the confirmation whatever the
    authorisation, the query and the deliveries will yield: when the
    handler returns, the reply is complete and the authorize callback is
    still pending.  When no document matches the topic, no push message is
    posted. *)
Theorem trigger_replies_first v w docs count req :
  trigger_intent v = Some (intent req) →
  let o := process (app_of v) w docs count req in
  reply o = confirmation
  ∧ (∃ st,
       handle (app_of v) w
              (mkState (mkConversation req count [] true) docs [])
       = (Done (), st)
       ∧ Done (responses (conv st), expectUserResponse (conv st))
         = confirmation
       ∧ pending st = [OnAuthorize (notification_title v) (topic v)])
  ∧ (collection_where_intent (topic v) docs = [] → posts (background o) = []).
Proof.
  intros Hi o. subst o. split; [|split].
  - unfold process. by rewrite finish_reply, (trigger_handle _ _ _ _ _ Hi).
  - eexists. split; [by apply trigger_handle|]. done.
  - intros Hnone. rewrite (trigger_background _ _ _ _ _ Hi), Hnone.
    destruct (authorize_result w); [done|]. by destruct (query_error w).
Qed.

(** ** The collection is only ever appended to *)

Lemma handlers_keep_users v name h w :
  app_intents (app_of v) name = Some h →
  optin_intent v ≠ Some name →
  preserves users (h w).
Proof.
  intros H Hne.
  destruct v; simpl in H, Hne;
    unfold Start.intents, UnnamedA.intents, UnnamedB.intents in H;
    split_intents H name; unfold_handlers; unfold incr_fallbackCount; frame.
Qed.

(** C7.  A turn leaves the [users] collection as it was, or, for an opt-in,
    with one document appended: every document that was there stays in
    place, unchanged.  A trigger turn only reads the collection, whatever
    happens to the deliveries. *)
Theorem store_append_only v w docs count req :
  let o := process (app_of v) w docs count req in
  (store o = docs
   ∨ (optin_intent v = Some (intent req)
      ∧ ∃ userId, store o = docs ++ [mkDoc (topic v) userId]))
  ∧ (∀ i d, docs !! i = Some d → store o !! i = Some d)
  ∧ (trigger_intent v = Some (intent req) → store o = docs).
Proof.
  intros o.
  assert (Hmain : store o = docs
           ∨ (optin_intent v = Some (intent req)
              ∧ ∃ userId, store o = docs ++ [mkDoc (topic v) userId])).
  { destruct (decide (optin_intent v = Some (intent req))) as [Hi|Hne].
    - destruct (JS.truthy (arguments req !! "PERMISSION")) eqn:Hp.
      + subst o. rewrite (optin_granted _ _ _ _ _ Hi Hp).
        destruct (add_error w); simpl; eauto.
      + destruct (optin_declined v w docs count req Hi Hp) as [rest Ho].
        subst o. rewrite Ho. by left.
    - left. subst o. unfold process. rewrite finish_store, handle_spec.
      destruct (app_intents (app_of v) (intent req)) as [h|] eqn:Hh; [|done].
      by rewrite (handlers_keep_users v _ h w Hh Hne). }
  split; [done|]. split.
  - intros i d Hd. destruct Hmain as [-> | (_ & userId & ->)]; [done|].
    by apply lookup_app_l_Some.
  - intros Hi. subst o. unfold process.
    by rewrite finish_store, (trigger_handle _ _ _ _ _ Hi).
Qed.

(** ** A delivery that fails *)




(** ** The theorems at concrete requests *)

Lemma fallback_escalation_witness :
  JS.truthy_num None = false
  ∧ Forall (λ t, intent t.2 = fallback_intent unnamedA) four_fallbacks
  ∧ map reply (session (app_of unnamedA) [] None four_fallbacks)
    = [mild; detailed; closing].
Proof.
  assert (H : Forall (λ t : World * Request, intent t.2 = fallback_intent unnamedA)
                     four_fallbacks) by (repeat constructor).
  split; [reflexivity | split; [exact H|]].
  exact (proj1 (fallback_escalation unnamedA [] None four_fallbacks eq_refl H)).
Defined.



Lemma trigger_replies_first_witness :
  trigger_intent unnamedA = Some (intent cancel_request)
  ∧ collection_where_intent (topic unnamedA) [] = []
  ∧ reply (process (app_of unnamedA) gym_world [] None cancel_request)
    = confirmation
  ∧ posts (background (process (app_of unnamedA) gym_world [] None
                               cancel_request)) = [].
Proof.
  pose proof (trigger_replies_first unnamedA gym_world [] None cancel_request
                eq_refl) as (Hreply & _ & Hposts).
  exact (conj eq_refl (conj eq_refl (conj Hreply (Hposts eq_refl)))).
Defined.

Lemma counter_reset_witness :
  intent (request_of "hours") ≠ fallback_intent unnamedA
  ∧ data_fallbackCount
      (process (app_of unnamedA) gym_world [] (Some 2) (request_of "hours"))
    = Some 0.
Proof.
  assert (H : intent (request_of "hours") ≠ fallback_intent unnamedA)
    by discriminate.
  split; [exact H|].
  exact (counter_reset unnamedA gym_world [] (Some 2) (request_of "hours") H).
Defined.

Lemma class_list_dedup_witness :
  intent (request_of "Class List") = classList_intent start
  ∧ schedule_days gym_world
      !! resolve_day gym_world (parameters (request_of "Class List") !! "day")
    = Some [mkEntry "Yoga" "6am"; mkEntry "Yoga" "6am"; mkEntry "Spin" "7am"]
  ∧ ∃ classes,
      process (app_of start) gym_world [] None (request_of "Class List")
      = classList_outcome start (request_of "Class List") "Monday" classes []
      ∧ String.concat ", " classes = "Yoga at 6am, Spin at 7am".
Proof.
  refine (conj eq_refl (conj eq_refl _)).
  destruct (class_list_dedup start gym_world [] None (request_of "Class List")
              _ eq_refl eq_refl)
    as (classes & Hreply & _ & _ & _ & Hex).
  exists classes. split; [exact Hreply | exact (Hex eq_refl)].
Defined.

Lemma store_append_only_witness :
  trigger_intent unnamedA = Some (intent cancel_request)
  ∧ store (process (app_of unnamedA) gym_world two_subscribers None
                   cancel_request)
    = two_subscribers.
Proof.
  split; [reflexivity|].
  exact (proj2 (proj2 (store_append_only unnamedA gym_world two_subscribers
                         None cancel_request)) eq_refl).
Defined.

Lemma classList_missing_day_witness :
  intent funday_request = classList_intent unnamedB
  ∧ schedule_days gym_world
      !! resolve_day gym_world (parameters funday_request !! "day") = None
  ∧ process (app_of unnamedB) gym_world [] None funday_request
    = mkOutcome (Thrown TypeError) (Some 0) [] [].
Proof.
  refine (conj eq_refl (conj eq_refl _)).
  exact (classList_missing_day unnamedB gym_world [] None funday_request
           eq_refl eq_refl).
Defined.

Lemma classList_default_day_witness :
  intent (request_of "classList") = classList_intent unnamedA
  ∧ JS.truthy_str (parameters (request_of "classList") !! "day") = false
  ∧ reply (process (app_of unnamedA) gym_world [] None
                   (request_of "classList"))
    = Done ([SimpleResponse "On Monday we offer the following classes: Yoga at 6am, Spin at 7am. If you'd like, I can send you reminders about our classes. Can I help you with anything else?";
             Suggestions ["Ask about hours"; "Set reminders";
                          "Class cancellation"]], true).
Proof.
  refine (conj eq_refl (conj eq_refl _)).
  exact (f_equal reply
           (classList_default_day unnamedA gym_world [] None
              (request_of "classList") eq_refl eq_refl)).
Defined.

Lemma noInput_silent_witness :
  intent late_noInput = noInput_intent unnamedA
  ∧ JS.parseInt (arguments late_noInput !! "REPROMPT_COUNT") ≠ Some 0
  ∧ JS.parseInt (arguments late_noInput !! "REPROMPT_COUNT") ≠ Some 1
  ∧ JS.truthy (arguments late_noInput !! "IS_FINAL_REPROMPT") = false
  ∧ process (app_of unnamedA) gym_world [] None late_noInput
    = mkOutcome (Thrown no_response_error) (Some 0) [] [].
Proof.
  assert (H0 : JS.parseInt (arguments late_noInput !! "REPROMPT_COUNT") ≠ Some 0)
    by discriminate.
  assert (H1 : JS.parseInt (arguments late_noInput !! "REPROMPT_COUNT") ≠ Some 1)
    by discriminate.
  refine (conj eq_refl (conj H0 (conj H1 (conj eq_refl _)))).
  exact (proj2 (noInput_silent unnamedA gym_world [] None late_noInput
                  eq_refl H0 H1 eq_refl)).
Defined.

(** * Further properties of the handlers *)

Lemma ask_pending r : preserves pending (ask r).
Proof. by intros st. Qed.

Lemma close_pending r : preserves pending (close r).
Proof. by intros st. Qed.

Lemma set_fallbackCount_pending n : preserves pending (set_fallbackCount n).
Proof. by intros st. Qed.

Lemma collection_add_pending w d : preserves pending (collection_add w d).
Proof. intros st. unfold collection_add. by destruct (add_error w). Qed.

#[local] Hint Resolve ask_pending close_pending set_fallbackCount_pending
  collection_add_pending : frame.

Lemma handlers_keep_pending v name h w :
  app_intents (app_of v) name = Some h →
  trigger_intent v ≠ Some name →
  preserves pending (h w).
Proof.
  intros H Hne.
  destruct v; simpl in H, Hne;
    unfold Start.intents, UnnamedA.intents, UnnamedB.intents in H;
    split_intents H name; unfold_handlers; unfold incr_fallbackCount; frame.
Qed.

(** X5.  Only the trigger intent leaves a callback behind: after the reply
    of any other turn nothing is posted, logged or thrown. *)
Theorem only_trigger_dispatches v w docs count req :
  trigger_intent v ≠ Some (intent req) →
  background (process (app_of v) w docs count req) = [].
Proof.
  intros Hne. unfold process. rewrite finish_background, handle_spec.
  destruct (app_intents (app_of v) (intent req)) as [h|] eqn:Hh; [|done].
  by rewrite (handlers_keep_pending v _ h w Hh Hne).
Qed.

(** Case analysis on everything a handler branches on. *)
Ltac case_atoms :=
  repeat match goal with
  | |- context [screen ?r] => destruct (screen r) eqn:?
  | |- context [JS.num_eq ?x ?n] => destruct (JS.num_eq x n) eqn:?
  | |- context [bool_decide ?P] => destruct (bool_decide P) eqn:?
  | |- context [schedule_days ?w !! ?d] =>
      destruct (schedule_days w !! d) eqn:?
  | |- context [add_error ?w] => destruct (add_error w) eqn:?
  | |- context [arguments ?r !! "UPDATES_USER_ID"] =>
      destruct (arguments r !! "UPDATES_USER_ID") eqn:?
  | |- context [JS.truthy ?x] => destruct (JS.truthy x) eqn:?
  end.

Ltac eval_handlers v req Hh :=
  destruct v; simpl in Hh;
  unfold Start.intents, UnnamedA.intents, UnnamedB.intents in Hh;
  split_intents Hh (intent req);
  unfold_handlers;
  unfold incr_fallbackCount, classes_of, collection_add, when;
  unfold mbind, M_bind, mret, M_ret; simpl;
  case_atoms; simpl.


(** X2.  On a device without a screen no reply of any handler carries
    suggestion chips. *)
Theorem no_chips_without_screen v w docs count req rs open titles :
  screen req = false →
  reply (process (app_of v) w docs count req) = Done (rs, open) →
  Suggestions titles ∉ rs.
Proof.
  intros Hs. unfold process. rewrite finish_reply, handle_spec.
  destruct (app_intents (app_of v) (intent req)) as [h|] eqn:Hh; [|done].
  eval_handlers v req Hh; try congruence; intros Hr; try discriminate Hr.
  all: injection Hr as <- <-; intros Hin.
  all: repeat (apply elem_of_cons in Hin as [Hin|Hin]; [discriminate|]).
  all: by apply elem_of_nil in Hin.
Qed.

(** X3.  A reply ends the session only for the quit, fallback and no-input
    intents and, in the second file of [unnamed/part_000], for a class list
    started from a daily update; every other completed turn leaves the
    session open. *)
Theorem closing_intents v w docs count req rs :
  reply (process (app_of v) w docs count req) = Done (rs, false) →
  intent req = quit_intent v
  ∨ intent req = fallback_intent v
  ∨ intent req = noInput_intent v
  ∨ (v = unnamedB ∧ intent req = classList_intent v
     ∧ JS.truthy (arguments req !! "UPDATES") = true).
Proof.
  unfold process. rewrite finish_reply, handle_spec.
  destruct (app_intents (app_of v) (intent req)) as [h|] eqn:Hh; [|done].
  match goal with |- _ → ?Q => set (closes := Q) end.
  eval_handlers v req Hh; intros Hr; try discriminate Hr;
    subst closes; simpl; auto 10.
Qed.

Lemma num_eq_false_inv x n : JS.num_eq x n = false → x ≠ Some n.
Proof. intros H ->. simpl in H. by rewrite Z.eqb_refl in H. Qed.

(** X4.  A turn of an intent that has a handler, the trigger intent apart
    (it loads the key file, which is taken to load), fails for three reasons
    only: the class list of a day the schedule does not have (a TypeError),
    an opt-in whose insertion the store rejects (the rejection), and a
    no-input turn to which the handler adds no response (the error of the
    library). *)
Theorem failing_turns v w docs count req e :
  is_Some (app_intents (app_of v) (intent req)) →
  trigger_intent v ≠ Some (intent req) →
  reply (process (app_of v) w docs count req) = Thrown e →
  (intent req = classList_intent v
   ∧ schedule_days w !! resolve_day w (parameters req !! "day") = None
   ∧ e = TypeError)
  ∨ (optin_intent v = Some (intent req)
     ∧ JS.truthy (arguments req !! "PERMISSION") = true
     ∧ ∃ msg, add_error w = Some msg ∧ e = mkError msg)
  ∨ (intent req = noInput_intent v
     ∧ JS.parseInt (arguments req !! "REPROMPT_COUNT") ≠ Some 0
     ∧ JS.parseInt (arguments req !! "REPROMPT_COUNT") ≠ Some 1
     ∧ JS.truthy (arguments req !! "IS_FINAL_REPROMPT") = false
     ∧ e = no_response_error).
Proof.
  intros [h Hh] _. unfold process. rewrite finish_reply, handle_spec, Hh.
  match goal with |- _ → ?Q => set (cause := Q) end.
  eval_handlers v req Hh; intros Hr; try discriminate Hr;
    injection Hr as <-; subst cause; simpl.
  all: match goal with E : intent _ = _ |- _ => rewrite E end.
  all: first
    [ solve [eauto 10]
    | right; right;
      repeat match goal with
      | H : JS.num_eq _ _ = false |- _ => apply num_eq_false_inv in H
      end; done ].
Qed.

Lemma num_eq_true x n : x = Some n → JS.num_eq x n = true.
Proof. intros ->. simpl. apply Z.eqb_refl. Qed.

Lemma noInput_not_fallback v req :
  intent req = noInput_intent v → intent req ≠ fallback_intent v.
Proof. destruct v; simpl; intros ->; done. Qed.

(** X6.  The no-input handler answers a reprompt count of 0 and of 1 with its
    two reprompts, also when the final-reprompt flag is set, and replies
    with the message that closes the session exactly when the count is
    neither and the flag is set; it never touches the collection nor leaves
    a callback. *)
Theorem noInput_escalation v w docs count req :
  intent req = noInput_intent v →
  let o := process (app_of v) w docs count req in
  let n := JS.parseInt (arguments req !! "REPROMPT_COUNT") in
  let final := JS.truthy (arguments req !! "IS_FINAL_REPROMPT") in
  (n = Some 0 →
     reply o = Done ([SimpleResponse "Sorry, I can't hear you."], true))
  ∧ (n = Some 1 →
     reply o = Done ([SimpleResponse "I'm sorry, I still can't hear you."],
                     true))
  ∧ (n ≠ Some 0 → n ≠ Some 1 → final = true →
     reply o = Done ([SimpleResponse "I'm sorry, I'm having trouble here. Maybe we should try this again later."],
                     false))
  ∧ (∀ rs, reply o = Done (rs, false) →
           n ≠ Some 0 ∧ n ≠ Some 1 ∧ final = true)
  ∧ store o = docs
  ∧ background o = [].
Proof.
  intros Hi o n final. subst o. unfold process.
  rewrite finish_reply, finish_store, finish_background, handle_spec.
  rewrite reset_count_other by by apply noInput_not_fallback.
  rewrite Hi. subst n final.
  destruct v; simpl; unfold_handlers; unfold mbind, M_bind; simpl.
  all: destruct (JS.parseInt (arguments req !! "REPROMPT_COUNT"))
         as [[|[| |]|]|] eqn:Hn; simpl.
  all: destruct (JS.truthy (arguments req !! "IS_FINAL_REPROMPT")); simpl.
  all: repeat split; try done; try (intros; congruence).
Qed.

(** X7.  A turn of any intent but the fallback intent has the same outcome
    whatever fallback count the session carried. *)
Theorem reply_unaffected_by_count v w docs count1 count2 req :
  intent req ≠ fallback_intent v →
  process (app_of v) w docs count1 req = process (app_of v) w docs count2 req.
Proof.
  intros Hne. unfold process. by rewrite !handle_spec, !reset_count_other.
Qed.


(** ** Sessions *)

Lemma process_count v w docs count req :
  data_fallbackCount (process (app_of v) w docs count req)
  = Some (if String.eqb (intent req) (fallback_intent v)
          then next_count count else 0).
Proof.
  destruct (String.eqb_spec (intent req) (fallback_intent v)) as [Hi|Hne].
  - by rewrite (fallback_turn _ _ _ _ _ Hi).
  - unfold process. rewrite finish_count, handle_spec, reset_count_other by done.
    destruct (app_intents (app_of v) (intent req)) as [h|] eqn:Hh; [|done].
    by rewrite (handlers_keep_count v _ h w Hh Hne).
Qed.

Lemma process_store v w docs count req :
  ∃ added, store (process (app_of v) w docs count req) = docs ++ added.
Proof.
  destruct (decide (optin_intent v = Some (intent req))) as [Hi|Hne].
  - destruct (JS.truthy (arguments req !! "PERMISSION")) eqn:Hp.
    + rewrite (optin_granted _ _ _ _ _ Hi Hp).
      destruct (add_error w); simpl; [exists []|eauto]. by rewrite app_nil_r.
    + destruct (optin_declined v w docs count req Hi Hp) as [rest ->].
      exists []. by rewrite app_nil_r.
  - exists []. unfold process. rewrite finish_store, handle_spec, app_nil_r.
    destruct (app_intents (app_of v) (intent req)) as [h|] eqn:Hh; [|done].
    by rewrite (handlers_keep_users v _ h w Hh Hne).
Qed.

(** A count a session can start a turn with: none yet, or 0, 1 or 2. *)
Lemma turn_count_bounded v w docs count req :
  (∀ n, count = Some n → 0 ≤ n ≤ 2) →
  let o := process (app_of v) w docs count req in
  ∃ n, data_fallbackCount o = Some n ∧ 0 ≤ n ≤ 3
       ∧ (session_open o = true → n ≤ 2).
Proof.
  intros Hc o. subst o.
  destruct (String.eqb_spec (intent req) (fallback_intent v)) as [Hi|Hne].
  - rewrite (fallback_turn _ _ _ _ _ Hi). fold (next_count count). cbv zeta.
    exists (next_count count). split; [done|].
    assert (1 ≤ next_count count ≤ 3) as Hn.
    { unfold next_count. destruct count as [n|]; simpl; [|lia].
      specialize (Hc n eq_refl). destruct (n =? 0); simpl; lia. }
    split; [lia|]. unfold session_open, fallback_reply. simpl.
    destruct (Z.eqb_spec (next_count count) 1); [lia|].
    destruct (Z.eqb_spec (next_count count) 2); [lia|]. done.
  - exists 0. rewrite process_count.
    destruct (String.eqb_spec (intent req) (fallback_intent v)); [done|].
    split; [done|]. split; lia.
Qed.

(** X9.  In a session that starts with a count of at most 2 (or none) the
    count after every turn is a number between 0 and 3, and at most 2 as long
    as the session is open. *)
Theorem session_count_bounded v docs count turns o :
  (∀ n, count = Some n → 0 ≤ n ≤ 2) →
  o ∈ session (app_of v) docs count turns →
  ∃ n, data_fallbackCount o = Some n ∧ 0 ≤ n ≤ 3
       ∧ (session_open o = true → n ≤ 2).
Proof.
  revert docs count. induction turns as [|[w req] turns IH];
    intros docs count Hc Ho.
  { by apply elem_of_nil in Ho. }
  rewrite session_cons in Ho. cbv zeta in Ho.
  destruct (turn_count_bounded v w docs count req Hc) as (n & Hn & Hb & Hopen).
  apply elem_of_cons in Ho as [-> | Ho]; [by exists n|].
  destruct (session_open (process (app_of v) w docs count req)) eqn:Hso;
    [|by apply elem_of_nil in Ho].
  apply (IH _ _) in Ho; [done|].
  intros m Hm. rewrite Hn in Hm. injection Hm as <-.
  specialize (Hopen eq_refl). lia.
Qed.

(** X8.  After a turn of another intent the escalation starts over: the next
    fallback turn gets the mild reprompt and counts as the first. *)
Theorem escalation_restarts v docs count w1 req1 w2 req2 rest o2 :
  intent req1 ≠ fallback_intent v →
  intent req2 = fallback_intent v →
  session (app_of v) docs count ((w1, req1) :: (w2, req2) :: rest) !! 1%nat
  = Some o2 →
  reply o2 = mild ∧ data_fallbackCount o2 = Some 1.
Proof.
  intros Hne Hi. rewrite session_cons. cbv zeta.
  destruct (session_open (process (app_of v) w1 docs count req1)); [|done].
  rewrite (session_fallback_cons _ _ _ _ _ _ Hi), process_count.
  destruct (String.eqb_spec (intent req1) (fallback_intent v)); [done|].
  simpl. by intros [= <-].
Qed.

(** X10.  Throughout a session the collection only grows at its end: the
    documents it started with remain its prefix after every turn. *)
Theorem session_store_grows v docs count turns o :
  o ∈ session (app_of v) docs count turns →
  docs `prefix_of` store o.
Proof.
  revert docs count. induction turns as [|[w req] turns IH];
    intros docs count Ho.
  { by apply elem_of_nil in Ho. }
  rewrite session_cons in Ho. cbv zeta in Ho.
  destruct (process_store v w docs count req) as [added Hst].
  apply elem_of_cons in Ho as [-> | Ho].
  { rewrite Hst. by apply prefix_app_r. }
  destruct (session_open (process (app_of v) w docs count req));
    [|by apply elem_of_nil in Ho].
  apply IH in Ho. rewrite Hst in Ho.
  etrans; [|exact Ho]. by apply prefix_app_r.
Qed.

(** ** Subscriptions and batches *)

(** X11.  Opting in is not idempotent: a second acknowledged opt-in of the same
    request appends the same document again. *)
Theorem optin_twice v w1 w2 docs count req :
  optin_intent v = Some (intent req) →
  JS.truthy (arguments req !! "PERMISSION") = true →
  add_error w1 = None → add_error w2 = None →
  let o1 := process (app_of v) w1 docs count req in
  store (process (app_of v) w2 (store o1) (data_fallbackCount o1) req)
  = docs ++ [mkDoc (topic v) (userId_of req); mkDoc (topic v) (userId_of req)].
Proof.
  intros Hi Hp H1 H2 o1. subst o1.
  rewrite (optin_granted _ w1 _ _ _ Hi Hp), H1. simpl.
  rewrite (optin_granted _ w2 _ _ _ Hi Hp), H2. simpl.
  by rewrite <- app_assoc.
Qed.

Lemma where_intent_snoc tp docs d :
  doc_intent d = tp →
  collection_where_intent tp (docs ++ [d])
  = collection_where_intent tp docs ++ [d].
Proof.
  intros Hd. unfold collection_where_intent.
  by rewrite filter_app, filter_cons_True, filter_nil.
Qed.

(** X12.  A user who opted in is notified by the next batch: with
    authorisation and query succeeding, a trigger turn posts a push message
    that targets the identifier and topic the opt-in stored. *)
Theorem optin_then_trigger v w1 w2 docs count req count' req' access_token :
  optin_intent v = Some (intent req) →
  JS.truthy (arguments req !! "PERMISSION") = true →
  add_error w1 = None →
  trigger_intent v = Some (intent req') →
  authorize_result w2 = inr access_token →
  query_error w2 = None →
  let o1 := process (app_of v) w1 docs count req in
  let o2 := process (app_of v) w2 (store o1) count' req' in
  mkNotification (notification_title v) (userId_of req) (topic v)
  ∈ posts (background o2).
Proof.
  intros Hi Hp Hadd Ht Hauth Hq o1 o2. subst o1 o2.
  rewrite (optin_granted _ w1 _ _ _ Hi Hp), Hadd. simpl.
  rewrite (trigger_background _ _ _ _ _ Ht), Hauth, Hq. cbv zeta.
  rewrite posts_app, posts_map_Post, posts_callbacks, app_nil_r.
  rewrite where_intent_snoc by done.
  rewrite map_app, elem_of_app. right. by apply list_elem_of_singleton.
Qed.

(** X13.  Every push message of a trigger turn carries the version's title
    and the cancellation topic, and targets the user of a document of the
    collection stored under that topic. *)
Theorem posts_target_subscribers v w docs count req n :
  trigger_intent v = Some (intent req) →
  n ∈ posts (background (process (app_of v) w docs count req)) →
  title n = notification_title v
  ∧ target_intent n = topic v
  ∧ ∃ d, d ∈ docs ∧ doc_intent d = topic v ∧ target_userId n = doc_userId d.
Proof.
  intros Hi. rewrite (trigger_background _ _ _ _ _ Hi).
  destruct (authorize_result w) as [err|tok];
    [by intros ?%elem_of_nil|].
  destruct (query_error w); [by intros ?%elem_of_nil|]. cbv zeta.
  rewrite posts_app, posts_map_Post, posts_callbacks, app_nil_r.
  intros (d & -> & Hd)%list_elem_of_fmap.
  apply list_elem_of_filter in Hd as [Hd Hin]. simpl.
  split; [done|]. split; [done|]. by exists d.
Qed.

(** X14.  A refused authorisation, and a failed query, abort the batch with one
    uncaught error and without any post; the authorisation is checked
    first.  The reply stays the confirmation and the collection is
    untouched. *)
Theorem batch_aborts v w docs count req :
  trigger_intent v = Some (intent req) →
  let o := process (app_of v) w docs count req in
  (∀ err, authorize_result w = inl err →
     background o = [Uncaught (mkError ("Auth error: " +:+ err))])
  ∧ (∀ access_token error,
       authorize_result w = inr access_token → query_error w = Some error →
       background o
       = [Uncaught (mkError ("Firestore query error: " +:+ error))])
  ∧ reply o = confirmation
  ∧ store o = docs.
Proof.
  intros Hi o. subst o. rewrite (trigger_background _ _ _ _ _ Hi).
  split; [by intros err ->|]. split; [by intros tok error -> ->|].
  unfold process.
  by rewrite finish_reply, finish_store, (trigger_handle _ _ _ _ _ Hi).
Qed.

Lemma logs_app l1 l2 : logs (l1 ++ l2) = logs l1 ++ logs l2.
Proof. apply omap_app. Qed.

Lemma logs_map_Post bearer (ns : list Notification) :
  logs (map (Post bearer) ns) = [].
Proof. by induction ns. Qed.

Lemma callbacks_all_delivered (f : nat → PostResult) (l : list Doc) :
  (∀ i, (i < length l)%nat →
        ∃ code msg body, f i = PostResponse code msg body) →
  (∀ e, Uncaught e ∉ mjoin (imap (λ i _, post_callback (f i)) l))
  ∧ length (logs (mjoin (imap (λ i _, post_callback (f i)) l)))
    = (2 * length l)%nat.
Proof.
  revert f. induction l as [|d l IH]; intros f Hf; simpl.
  { split; [intros e; apply not_elem_of_nil | done]. }
  destruct (Hf 0%nat) as (code & msg & body & H0); [simpl; lia|].
  destruct (IH (f ∘ S)) as [IH1 IH2].
  { intros i Hi. apply (Hf (S i)). simpl. lia. }
  rewrite H0. simpl. split.
  - intros e. rewrite !not_elem_of_cons. repeat split; first [done | apply IH1].
  - transitivity (S (S (2 * length l)))%nat; [|lia].
    do 2 f_equal. exact IH2.
Qed.

(** X15.  When every delivery of a batch completes, nothing is thrown and two
    lines are logged per subscriber. *)
Theorem batch_all_delivered v w docs count req access_token :
  trigger_intent v = Some (intent req) →
  authorize_result w = inr access_token →
  query_error w = None →
  (∀ i, (i < length (collection_where_intent (topic v) docs))%nat →
        ∃ code msg body, post_result w i = PostResponse code msg body) →
  let o := process (app_of v) w docs count req in
  (∀ e, Uncaught e ∉ background o)
  ∧ length (logs (background o))
    = (2 * length (collection_where_intent (topic v) docs))%nat.
Proof.
  intros Hi Hauth Hq Hall o. subst o.
  rewrite (trigger_background _ _ _ _ _ Hi), Hauth, Hq. cbv zeta.
  destruct (callbacks_all_delivered (post_result w) _ Hall) as [H1 H2].
  split.
  - intros e. rewrite elem_of_app. intros [Hin|Hin]; [|by apply (H1 e)].
    apply list_elem_of_fmap in Hin as (? & ? & _). discriminate.
  - by rewrite logs_app, logs_map_Post.
Qed.

(** ** The class list *)

Lemma filter_ne_id (l : list string) x :
  x ∉ l → filter (λ y, y ≠ x) l = l.
Proof.
  induction l as [|y l IH]; [done|].
  intros [Hxy Hx]%not_elem_of_cons.
  rewrite filter_cons_True by done. by rewrite IH.
Qed.

Lemma dedup_first_NoDup_id (l : list string) : NoDup l → dedup_first l = l.
Proof.
  induction 1 as [|x l Hx _ IH]; simpl; [done|].
  by rewrite IH, filter_ne_id.
Qed.

(** X16.  When no two entries of the day yield the same string, the reply is
    exactly the message that names the day and lists the string of every
    entry, in the order of the schedule; for a day without entries nothing
    stands between the colon and the text that follows the list. *)
Theorem class_list_distinct v w docs count req entries :
  intent req = classList_intent v →
  schedule_days w !! resolve_day w (parameters req !! "day") = Some entries →
  NoDup (map name_at_time entries) →
  let day := resolve_day w (parameters req !! "day") in
  process (app_of v) w docs count req
  = classList_outcome v req day (map name_at_time entries) docs
  ∧ (entries = [] →
     reply (process (app_of v) w docs count req)
     = Done (SimpleResponse
               ("On " +:+ day +:+ " we offer the following classes: " +:+
                classList_tail v req)
             :: classList_chips v req, classList_open v req)).
Proof.
  intros Hi Hday Hnd day. subst day.
  rewrite (classList_turn _ _ _ _ _ Hi), Hday, dedup_first_NoDup_id by done.
  split; [done|]. by intros ->.
Qed.

Lemma new_Set_snoc_repeated (l : list string) x :
  x ∈ l → JS.new_Set (l ++ [x]) = JS.new_Set l.
Proof.
  intros Hx. unfold JS.new_Set. rewrite fold_left_app. simpl.
  fold (JS.new_Set l). unfold JS.set_add.
  rewrite bool_decide_eq_true_2; [done|].
  by rewrite new_Set_dedup_first, dedup_first_elem_of.
Qed.

Lemma run_callbacks_same_net w w' cbs docs :
  authorize_result w' = authorize_result w →
  query_error w' = query_error w →
  post_result w' = post_result w →
  run_callbacks w' cbs docs = run_callbacks w cbs docs.
Proof.
  intros Ha Hq Hp. revert docs.
  induction cbs as [|[title topic] cbs IH]; intros docs; simpl; [done|].
  rewrite Ha, Hq, Hp.
  destruct (authorize_result w); [by rewrite IH|].
  destruct (query_error w); by rewrite IH.
Qed.

Lemma finish_same_net w w' rs :
  authorize_result w' = authorize_result w →
  query_error w' = query_error w →
  post_result w' = post_result w →
  finish w' rs = finish w rs.
Proof.
  intros Ha Hq Hp. destruct rs as [r st]. simpl.
  by rewrite (run_callbacks_same_net w w').
Qed.

(** X17.  Scheduling once more a class whose name and time are already listed
    for the day changes nothing in the class-list turn. *)
Theorem repeated_entry_ignored v w docs count req entries e :
  intent req = classList_intent v →
  let day := resolve_day w (parameters req !! "day") in
  schedule_days w !! day = Some entries →
  name e +:+ " at " +:+ startTime e ∈ class_strings entries →
  process (app_of v) (with_entries w day (entries ++ [e])) docs count req
  = process (app_of v) w docs count req.
Proof.
  intros Hi day Hday He. unfold process.
  rewrite (finish_same_net w) by done. f_equal.
  rewrite !handle_spec, Hi.
  assert (Hc : ∀ st,
    classes_of (with_entries w day (entries ++ [e])) day st
    = classes_of w day st).
  { intros st. unfold classes_of. simpl. rewrite lookup_insert_eq, Hday.
    unfold class_strings. rewrite map_app. simpl.
    by rewrite new_Set_snoc_repeated. }
  destruct v; simpl; unfold_handlers; unfold mbind, M_bind; simpl;
    fold day; by rewrite Hc.
Qed.

Lemma resolve_day_supplied w d day :
  JS.truthy_str day = true →
  resolve_day (with_today w d) day = resolve_day w day.
Proof. unfold resolve_day. destruct day; [by intros ->|done]. Qed.

(** X18.  The day of the week of the request matters to a class-list turn
    without [day] parameter only: every other turn is the same on any
    day. *)
Theorem clock_only_for_default_day v w d docs count req :
  (intent req = classList_intent v →
   JS.truthy_str (parameters req !! "day") = true) →
  process (app_of v) (with_today w d) docs count req
  = process (app_of v) w docs count req.
Proof.
  intros Hday. unfold process.
  rewrite (finish_same_net w) by done. f_equal.
  rewrite !handle_spec.
  destruct (app_intents (app_of v) (intent req)) as [h|] eqn:Hh; [|done].
  destruct v; simpl in Hh, Hday;
    unfold Start.intents, UnnamedA.intents, UnnamedB.intents in Hh;
    split_intents Hh (intent req); try reflexivity.
  all: unfold_handlers; unfold mbind, M_bind; simpl.
  all: by rewrite resolve_day_supplied by auto.
Qed.

(** X19.  In the second file of [unnamed/part_000], a class list started from
    a daily update is a single message that ends with the farewell and
    closes the session, with or without a screen; otherwise the session
    stays open. *)
Theorem digest_closes w docs count req entries :
  intent req = classList_intent unnamedB →
  schedule_days w !! resolve_day w (parameters req !! "day") = Some entries →
  let o := process (app_of unnamedB) w docs count req in
  (JS.truthy (arguments req !! "UPDATES") = true →
     ∃ pre, reply o
            = Done ([SimpleResponse
                       (pre +:+ "Hope to see you soon at Action Gym!")],
                    false))
  ∧ (JS.truthy (arguments req !! "UPDATES") = false → session_open o = true).
Proof.
  intros Hi Hday o. subst o. unfold process, session_open.
  rewrite finish_reply, handle_spec, Hi. simpl.
  unfold_handlers; unfold mbind, M_bind; simpl.
  unfold classes_of. rewrite Hday. simpl. split; intros ->; simpl.
  - eauto.
  - by destruct (screen req).
Qed.

(** X20.  No handler reads the collection to build its reply: the reply and
    the fallback count of a turn are the same for any content of the
    collection. *)
Theorem reply_ignores_store v w docs1 docs2 count req :
  reply (process (app_of v) w docs1 count req)
  = reply (process (app_of v) w docs2 count req)
  ∧ data_fallbackCount (process (app_of v) w docs1 count req)
    = data_fallbackCount (process (app_of v) w docs2 count req).
Proof.
  split; [|by rewrite !process_count].
  unfold process. rewrite !finish_reply, !handle_spec.
  destruct (app_intents (app_of v) (intent req)) as [h|] eqn:Hh; [|done].
  eval_handlers v req Hh; reflexivity.
Qed.

(** ** What a reply can ask the platform to set up *)

Ltac absent_from_reply H :=
  repeat (apply elem_of_cons in H as [H|H]; [discriminate H|]);
  by apply elem_of_nil in H.

Ltac named_in_reply H :=
  repeat (apply elem_of_cons in H as [H|H];
          [first [ discriminate H
                 | injection H as ->; split; [done | by eexists]
                 | injection H as -> ->; split; [done | by eexists] ] |]);
  try by apply elem_of_nil in H.

(** X21.  Whatever a reply asks the platform to set up names an intent that
    has a handler: a permission is only requested for the cancellation topic
    and an update is only registered for the class list. *)
Theorem replies_name_registered_intents v w docs count req rs open :
  reply (process (app_of v) w docs count req) = Done (rs, open) →
  (∀ target, UpdatePermission target ∈ rs →
     target = topic v ∧ is_Some (app_intents (app_of v) target))
  ∧ (∀ target frequency, RegisterUpdate target frequency ∈ rs →
       target = classList_intent v
       ∧ is_Some (app_intents (app_of v) target)).
Proof.
  unfold process. rewrite finish_reply, handle_spec.
  destruct (app_intents (app_of v) (intent req)) as [h|] eqn:Hh; [|done].
  eval_handlers v req Hh; intros Hr; try discriminate Hr;
    injection Hr as <- <-.
  all: split; [intros target Hin | intros target frequency Hin].
  all: first [ absent_from_reply Hin | named_in_reply Hin ].
Qed.

(** ** The further properties at concrete requests *)


Lemma no_chips_without_screen_witness :
  screen (voice_request "welcome") = false
  ∧ reply (process (app_of unnamedA) gym_world [] None
                   (voice_request "welcome"))
    = Done ([SimpleResponse "Welcome to Action Gym, your local gym here to support your health goals. You can ask me about our hours or what classes we offer each day."],
            true)
  ∧ Suggestions ["Ask about hours"]
    ∉ [SimpleResponse "Welcome to Action Gym, your local gym here to support your health goals. You can ask me about our hours or what classes we offer each day."].
Proof.
  exact (conj eq_refl (conj eq_refl
    (no_chips_without_screen unnamedA gym_world [] None
       (voice_request "welcome") _ _ ["Ask about hours"] eq_refl eq_refl))).
Defined.

Lemma closing_intents_witness :
  reply (process (app_of unnamedA) gym_world [] None (request_of "quit"))
  = Done ([SimpleResponse "Great chatting with you!"], false)
  ∧ (intent (request_of "quit") = quit_intent unnamedA
     ∨ intent (request_of "quit") = fallback_intent unnamedA
     ∨ intent (request_of "quit") = noInput_intent unnamedA
     ∨ (unnamedA = unnamedB
        ∧ intent (request_of "quit") = classList_intent unnamedA
        ∧ JS.truthy (arguments (request_of "quit") !! "UPDATES") = true)).
Proof.
  exact (conj eq_refl
    (closing_intents unnamedA gym_world [] None (request_of "quit") _
       eq_refl)).
Defined.

Lemma failing_turns_witness :
  is_Some (app_intents (app_of unnamedA) (intent late_noInput))
  ∧ trigger_intent unnamedA ≠ Some (intent late_noInput)
  ∧ reply (process (app_of unnamedA) gym_world [] None late_noInput)
    = Thrown no_response_error
  ∧ ((intent late_noInput = classList_intent unnamedA
      ∧ schedule_days gym_world
          !! resolve_day gym_world (parameters late_noInput !! "day")
        = None
      ∧ no_response_error = TypeError)
     ∨ (optin_intent unnamedA = Some (intent late_noInput)
        ∧ JS.truthy (arguments late_noInput !! "PERMISSION") = true
        ∧ ∃ msg, add_error gym_world = Some msg
                 ∧ no_response_error = mkError msg)
     ∨ (intent late_noInput = noInput_intent unnamedA
        ∧ JS.parseInt (arguments late_noInput !! "REPROMPT_COUNT") ≠ Some 0
        ∧ JS.parseInt (arguments late_noInput !! "REPROMPT_COUNT") ≠ Some 1
        ∧ JS.truthy (arguments late_noInput !! "IS_FINAL_REPROMPT") = false
        ∧ no_response_error = no_response_error)).
Proof.
  assert (H1 : is_Some (app_intents (app_of unnamedA) (intent late_noInput)))
    by (eexists; reflexivity).
  assert (H2 : trigger_intent unnamedA ≠ Some (intent late_noInput))
    by discriminate.
  exact (conj H1 (conj H2 (conj eq_refl
    (failing_turns unnamedA gym_world [] None late_noInput
       no_response_error H1 H2 eq_refl)))).
Defined.

Lemma only_trigger_dispatches_witness :
  trigger_intent unnamedA ≠ Some (intent optin_request)
  ∧ background (process (app_of unnamedA) gym_world two_subscribers None
                        optin_request) = [].
Proof.
  assert (H : trigger_intent unnamedA ≠ Some (intent optin_request))
    by discriminate.
  exact (conj H
    (only_trigger_dispatches unnamedA gym_world two_subscribers None
       optin_request H)).
Defined.

Lemma noInput_escalation_witness :
  intent first_noInput = noInput_intent unnamedB
  ∧ JS.parseInt (arguments first_noInput !! "REPROMPT_COUNT") = Some 0
  ∧ reply (process (app_of unnamedB) gym_world [] None first_noInput)
    = Done ([SimpleResponse "Sorry, I can't hear you."], true).
Proof.
  exact (conj eq_refl (conj eq_refl
    (proj1 (noInput_escalation unnamedB gym_world [] None first_noInput
              eq_refl) eq_refl))).
Defined.

Lemma reply_unaffected_by_count_witness :
  intent (request_of "hours") ≠ fallback_intent unnamedA
  ∧ process (app_of unnamedA) gym_world [] (Some 2) (request_of "hours")
    = process (app_of unnamedA) gym_world [] None (request_of "hours").
Proof.
  assert (H : intent (request_of "hours") ≠ fallback_intent unnamedA)
    by discriminate.
  exact (conj H
    (reply_unaffected_by_count unnamedA gym_world [] (Some 2) None
       (request_of "hours") H)).
Defined.

Lemma escalation_restarts_witness :
  intent (request_of "hours") ≠ fallback_intent unnamedA
  ∧ intent (request_of "fallback") = fallback_intent unnamedA
  ∧ session (app_of unnamedA) [] (Some 2)
            [(gym_world, request_of "hours");
             (gym_world, request_of "fallback")] !! 1%nat
    = Some (mkOutcome mild (Some 1) [] [])
  ∧ reply (mkOutcome mild (Some 1) [] []) = mild
  ∧ data_fallbackCount (mkOutcome mild (Some 1) [] []) = Some 1.
Proof.
  assert (H : intent (request_of "hours") ≠ fallback_intent unnamedA)
    by discriminate.
  exact (conj H (conj eq_refl (conj eq_refl
    (escalation_restarts unnamedA [] (Some 2) gym_world (request_of "hours")
       gym_world (request_of "fallback") [] _ H eq_refl eq_refl)))).
Defined.

Lemma session_count_bounded_witness :
  (∀ n, (None : option Z) = Some n → 0 ≤ n ≤ 2)
  ∧ mkOutcome closing (Some 3) [] []
    ∈ session (app_of unnamedA) [] None four_fallbacks
  ∧ ∃ n, data_fallbackCount (mkOutcome closing (Some 3) [] []) = Some n
         ∧ 0 ≤ n ≤ 3
         ∧ (session_open (mkOutcome closing (Some 3) [] []) = true → n ≤ 2).
Proof.
  assert (H1 : ∀ n, (None : option Z) = Some n → 0 ≤ n ≤ 2)
    by (intros n Hn; discriminate Hn).
  assert (H2 : mkOutcome closing (Some 3) [] []
               ∈ session (app_of unnamedA) [] None four_fallbacks)
    by (apply (list_elem_of_lookup_2 _ 2%nat); reflexivity).
  exact (conj H1 (conj H2
    (session_count_bounded unnamedA [] None four_fallbacks _ H1 H2))).
Defined.

Lemma session_store_grows_witness :
  process (app_of unnamedB) gym_world one_subscriber None optin_request
  ∈ session (app_of unnamedB) one_subscriber None [(gym_world, optin_request)]
  ∧ one_subscriber
    `prefix_of` store (process (app_of unnamedB) gym_world one_subscriber
                               None optin_request).
Proof.
  assert (H : process (app_of unnamedB) gym_world one_subscriber None
                      optin_request
              ∈ session (app_of unnamedB) one_subscriber None
                        [(gym_world, optin_request)])
    by (apply (list_elem_of_lookup_2 _ 0%nat); reflexivity).
  exact (conj H
    (session_store_grows unnamedB one_subscriber None
       [(gym_world, optin_request)] _ H)).
Defined.

Lemma optin_twice_witness :
  optin_intent unnamedB = Some (intent optin_request)
  ∧ JS.truthy (arguments optin_request !! "PERMISSION") = true
  ∧ add_error gym_world = None
  ∧ store (process (app_of unnamedB) gym_world
             (store (process (app_of unnamedB) gym_world [] None
                             optin_request))
             (data_fallbackCount (process (app_of unnamedB) gym_world []
                                          None optin_request))
             optin_request)
    = [mkDoc "Class Canceled" (JS.AStr "user-7");
       mkDoc "Class Canceled" (JS.AStr "user-7")].
Proof.
  exact (conj eq_refl (conj eq_refl (conj eq_refl
    (optin_twice unnamedB gym_world gym_world [] None optin_request
       eq_refl eq_refl eq_refl eq_refl)))).
Defined.

Lemma optin_then_trigger_witness :
  optin_intent unnamedB = Some (intent optin_request)
  ∧ JS.truthy (arguments optin_request !! "PERMISSION") = true
  ∧ add_error gym_world = None
  ∧ trigger_intent unnamedB = Some (intent trigger_request)
  ∧ authorize_result delivering_world = inr "token"
  ∧ query_error delivering_world = None
  ∧ mkNotification "Test Notification from Action Gym" (JS.AStr "user-7")
                   "Class Canceled"
    ∈ posts (background
        (process (app_of unnamedB) delivering_world
           (store (process (app_of unnamedB) gym_world two_subscribers None
                           optin_request))
           (Some 0) trigger_request)).
Proof.
  exact (conj eq_refl (conj eq_refl (conj eq_refl (conj eq_refl
    (conj eq_refl (conj eq_refl
      (optin_then_trigger unnamedB gym_world delivering_world two_subscribers
         None optin_request (Some 0) trigger_request "token"
         eq_refl eq_refl eq_refl eq_refl eq_refl eq_refl))))))).
Defined.

Lemma posts_target_subscribers_witness :
  trigger_intent unnamedA = Some (intent cancel_request)
  ∧ mkNotification "Notification Title" (JS.AStr "user-3") "classCanceled"
    ∈ posts (background (process (app_of unnamedA) gym_world two_subscribers
                                 None cancel_request))
  ∧ ∃ d, d ∈ two_subscribers ∧ doc_intent d = topic unnamedA
         ∧ JS.AStr "user-3" = doc_userId d.
Proof.
  assert (H : mkNotification "Notification Title" (JS.AStr "user-3")
                             "classCanceled"
              ∈ posts (background (process (app_of unnamedA) gym_world
                                           two_subscribers None
                                           cancel_request)))
    by (apply (list_elem_of_lookup_2 _ 1%nat); reflexivity).
  exact (conj eq_refl (conj H
    (proj2 (proj2
      (posts_target_subscribers unnamedA gym_world two_subscribers None
         cancel_request _ eq_refl H))))).
Defined.

Lemma batch_aborts_witness :
  trigger_intent unnamedA = Some (intent cancel_request)
  ∧ authorize_result unauthorized_world = inl "invalid_grant"
  ∧ background (process (app_of unnamedA) unauthorized_world two_subscribers
                        None cancel_request)
    = [Uncaught (mkError "Auth error: invalid_grant")].
Proof.
  exact (conj eq_refl (conj eq_refl
    (proj1 (batch_aborts unnamedA unauthorized_world two_subscribers None
              cancel_request eq_refl) "invalid_grant" eq_refl))).
Defined.

Lemma batch_all_delivered_witness :
  trigger_intent unnamedA = Some (intent cancel_request)
  ∧ authorize_result delivering_world = inr "token"
  ∧ query_error delivering_world = None
  ∧ (∀ i, (i < length (collection_where_intent (topic unnamedA)
                                               two_subscribers))%nat →
          ∃ code msg body,
            post_result delivering_world i = PostResponse code msg body)
  ∧ length (logs (background (process (app_of unnamedA) delivering_world
                                      two_subscribers None cancel_request)))
    = (2 * length (collection_where_intent (topic unnamedA)
                                           two_subscribers))%nat.
Proof.
  assert (H : ∀ i, (i < length (collection_where_intent (topic unnamedA)
                                                       two_subscribers))%nat →
                   ∃ code msg body,
                     post_result delivering_world i
                     = PostResponse code msg body)
    by (intros i _; exists 200, "OK", "{}"; reflexivity).
  exact (conj eq_refl (conj eq_refl (conj eq_refl (conj H
    (proj2 (batch_all_delivered unnamedA delivering_world two_subscribers
              None cancel_request "token" eq_refl eq_refl eq_refl H)))))).
Defined.

Lemma class_list_distinct_witness :
  intent (request_of "classList") = classList_intent unnamedA
  ∧ schedule_days tuesday_world
      !! resolve_day tuesday_world
           (parameters (request_of "classList") !! "day")
    = Some [mkEntry "Yoga" "6am"; mkEntry "Spin" "7am"]
  ∧ NoDup (map name_at_time [mkEntry "Yoga" "6am"; mkEntry "Spin" "7am"])
  ∧ reply (process (app_of unnamedA) tuesday_world [] None
                   (request_of "classList"))
    = Done ([SimpleResponse "On Tuesday we offer the following classes: Yoga at 6am, Spin at 7am. If you'd like, I can send you reminders about our classes. Can I help you with anything else?";
             Suggestions ["Ask about hours"; "Set reminders";
                          "Class cancellation"]], true).
Proof.
  assert (H : NoDup (map name_at_time [mkEntry "Yoga" "6am";
                                       mkEntry "Spin" "7am"]))
    by compute_done.
  exact (conj eq_refl (conj eq_refl (conj H
    (f_equal reply
       (proj1 (class_list_distinct unnamedA tuesday_world [] None
                 (request_of "classList") _ eq_refl eq_refl H)))))).
Defined.

Lemma repeated_entry_ignored_witness :
  intent (request_of "Class List") = classList_intent start
  ∧ schedule_days gym_world
      !! resolve_day gym_world (parameters (request_of "Class List") !! "day")
    = Some [mkEntry "Yoga" "6am"; mkEntry "Yoga" "6am"; mkEntry "Spin" "7am"]
  ∧ name (mkEntry "Spin" "7am") +:+ " at " +:+ startTime (mkEntry "Spin" "7am")
    ∈ class_strings [mkEntry "Yoga" "6am"; mkEntry "Yoga" "6am";
                     mkEntry "Spin" "7am"]
  ∧ process (app_of start)
      (with_entries gym_world
         (resolve_day gym_world
            (parameters (request_of "Class List") !! "day"))
         ([mkEntry "Yoga" "6am"; mkEntry "Yoga" "6am"; mkEntry "Spin" "7am"]
          ++ [mkEntry "Spin" "7am"]))
      [] None (request_of "Class List")
    = process (app_of start) gym_world [] None (request_of "Class List").
Proof.
  assert (H : name (mkEntry "Spin" "7am") +:+ " at "
              +:+ startTime (mkEntry "Spin" "7am")
              ∈ class_strings [mkEntry "Yoga" "6am"; mkEntry "Yoga" "6am";
                               mkEntry "Spin" "7am"])
    by (apply (list_elem_of_lookup_2 _ 2%nat); reflexivity).
  exact (conj eq_refl (conj eq_refl (conj H
    (repeated_entry_ignored start gym_world [] None
       (request_of "Class List") _ (mkEntry "Spin" "7am")
       eq_refl eq_refl H)))).
Defined.

Lemma clock_only_for_default_day_witness :
  (intent monday_request = classList_intent unnamedB →
   JS.truthy_str (parameters monday_request !! "day") = true)
  ∧ process (app_of unnamedB) (with_today gym_world Friday) [] None
            monday_request
    = process (app_of unnamedB) gym_world [] None monday_request.
Proof.
  assert (H : intent monday_request = classList_intent unnamedB →
              JS.truthy_str (parameters monday_request !! "day") = true)
    by (intros _; reflexivity).
  exact (conj H
    (clock_only_for_default_day unnamedB gym_world Friday [] None
       monday_request H)).
Defined.

Lemma digest_closes_witness :
  intent digest_request = classList_intent unnamedB
  ∧ schedule_days gym_world
      !! resolve_day gym_world (parameters digest_request !! "day")
    = Some [mkEntry "Yoga" "6am"; mkEntry "Yoga" "6am"; mkEntry "Spin" "7am"]
  ∧ JS.truthy (arguments digest_request !! "UPDATES") = true
  ∧ ∃ pre,
      reply (process (app_of unnamedB) gym_world [] None digest_request)
      = Done ([SimpleResponse
                 (pre +:+ "Hope to see you soon at Action Gym!")], false).
Proof.
  exact (conj eq_refl (conj eq_refl (conj eq_refl
    (proj1 (digest_closes gym_world [] None digest_request _
              eq_refl eq_refl) eq_refl)))).
Defined.

Lemma replies_name_registered_intents_witness :
  reply (process (app_of unnamedA) gym_world [] None
                 (request_of "setupPushNotifications"))
  = Done ([SimpleResponse "Update permission for setting up push notifications";
           UpdatePermission "classCanceled"], true)
  ∧ UpdatePermission "classCanceled"
    ∈ [SimpleResponse "Update permission for setting up push notifications";
       UpdatePermission "classCanceled"]
  ∧ "classCanceled" = topic unnamedA
  ∧ is_Some (app_intents (app_of unnamedA) "classCanceled").
Proof.
  assert (H : UpdatePermission "classCanceled"
              ∈ [SimpleResponse "Update permission for setting up push notifications";
                 UpdatePermission "classCanceled"])
    by (apply (list_elem_of_lookup_2 _ 1%nat); reflexivity).
  exact (conj eq_refl (conj H
    (proj1 (replies_name_registered_intents unnamedA gym_world [] None
              (request_of "setupPushNotifications") _ _ eq_refl)
       "classCanceled" H))).
Defined.
